(** * Cross-tab session cache and authentication continuity

    A shallow embedding of [tabSwitchUtil.ts] (tab identity, tab-state
    record, credential injection, visibility listener) and of the session
    parts of [authContext.tsx] (quiet revalidation, sign-out purge), with
    the properties the specification states about them.

    Conventions.
    - [localStorage] and [sessionStorage] are finite maps from key to
      string ([gmap string string]); [getItem] is lookup, [removeItem] is
      [delete], [setItem] is insert.  Storage calls do not raise.
    - The runtime's [JSON.stringify] / [JSON.parse] are modelled in module
      [JSON] on the data JSON can carry (null, booleans, integers, strings,
      arrays, objects); numbers are the integers, written in plain decimal.
      [JSON.parse] reads the compact texts [JSON.stringify] writes: a text
      with white space between its tokens, a fraction, an exponent or a
      [\u] escape above U+007F is outside the fragment and is read as a
      syntax error.
    - What an object can hold beyond JSON ([undefined], [NaN], the
      infinities, a [BigInt]) is the type [jsvalue] of module [JS], with
      what [JSON.stringify] makes of it.
    - An awaited call is taken at the point where it resolves; what it
      answers is an input of the function that awaits it.
    - [Date.now()] is the field [now]; [Math.random()] draws from the
      field [entropy].
    - [typeof window === 'undefined'] is the constructor [Server] of [Env]. *)

From Stdlib Require Import ZArith String Ascii List Lia Bool.
From Stdlib Require Import DecimalString DecimalZ.
From stdpp Require Import gmap strings.

Local Open Scope string_scope.
Local Open Scope Z_scope.

(** ** Strings as the source uses them *)

Module Str.

(** [s.startsWith(p)] *)
Definition startsWith (p s : string) : bool := String.prefix p s.

(** [s.includes(p)] *)
Fixpoint includes (p s : string) : bool :=
  String.prefix p s ||
  match s with
  | EmptyString => false
  | String _ s' => includes p s'
  end.

Definition lower_char (c : ascii) : ascii :=
  let n := N_of_ascii c in
  if ((65 <=? n) && (n <=? 90))%N then ascii_of_N (n + 32) else c.

(** ASCII lower-casing, as [Headers] applies to header names. *)
Fixpoint lower (s : string) : string :=
  match s with
  | EmptyString => EmptyString
  | String c s' => String (lower_char c) (lower s')
  end.

(** [s.split(c)[0]] *)
Fixpoint before (c : ascii) (s : string) : string :=
  match s with
  | EmptyString => EmptyString
  | String a s' => if Ascii.eqb a c then EmptyString else String a (before c s')
  end.

Definition nonempty (s : string) : bool :=
  match s with EmptyString => false | _ => true end.

End Str.

(** ** JSON values, [JSON.stringify] and [JSON.parse] *)

Module JSON.

#[local] Set Warnings "-register-all".

Inductive value : Type :=
| VNull
| VBool (b : bool)
| VNum (n : Z)
| VStr (s : string)
| VArr (items : list value)
| VObj (fields : list (string * value)).

Definition dquote : ascii := "034"%char.
Definition bslash : ascii := "092"%char.

Definition hex_digit (n : N) : ascii :=
  if (n <? 10)%N then ascii_of_N (48 + n) else ascii_of_N (87 + n).

Definition hex_value (c : ascii) : option N :=
  let n := N_of_ascii c in
  if ((48 <=? n) && (n <=? 57))%N then Some (n - 48)%N
  else if ((97 <=? n) && (n <=? 102))%N then Some (n - 87)%N
  else if ((65 <=? n) && (n <=? 70))%N then Some (n - 55)%N
  else None.

(** The escape [JSON.stringify] writes for one character. *)
Definition escape_char (c : ascii) : string :=
  let n := N_of_ascii c in
  if (n =? 34)%N then String bslash (String dquote EmptyString)
  else if (n =? 92)%N then String bslash (String bslash EmptyString)
  else if (n =? 8)%N then String bslash "b"
  else if (n =? 9)%N then String bslash "t"
  else if (n =? 10)%N then String bslash "n"
  else if (n =? 12)%N then String bslash "f"
  else if (n =? 13)%N then String bslash "r"
  else if (n <? 32)%N then
    String bslash
      (String "u" (String "0" (String "0"
         (String (hex_digit (n / 16)) (String (hex_digit (n mod 16)) EmptyString)))))
  else String c EmptyString.

Fixpoint escape (s : string) : string :=
  match s with
  | EmptyString => EmptyString
  | String c s' => escape_char c +:+ escape s'
  end.

Definition quote (s : string) : string :=
  String dquote (escape s +:+ String dquote EmptyString).

Definition print_Z (n : Z) : string := NilZero.string_of_int (Z.to_int n).

Fixpoint stringify (v : value) : string :=
  match v with
  | VNull => "null"
  | VBool true => "true"
  | VBool false => "false"
  | VNum n => print_Z n
  | VStr s => quote s
  | VArr items =>
      "[" +:+
      (fix elements (l : list value) : string :=
         match l with
         | [] => "]"
         | x :: l' =>
             stringify x +:+
             match l' with [] => "]" | _ => "," +:+ elements l' end
         end) items
  | VObj fields =>
      "{" +:+
      (fix members (l : list (string * value)) : string :=
         match l with
         | [] => "}"
         | (k, x) :: l' =>
             quote k +:+ ":" +:+ stringify x +:+
             match l' with [] => "}" | _ => "," +:+ members l' end
         end) fields
  end.

(** The simple escapes [JSON.parse] reads after a backslash. *)
Definition unescape_simple (e : ascii) : option ascii :=
  let n := N_of_ascii e in
  if (n =? 34)%N then Some dquote
  else if (n =? 92)%N then Some bslash
  else if (n =? 47)%N then Some "/"%char
  else if (n =? 98)%N then Some (ascii_of_N 8)
  else if (n =? 116)%N then Some (ascii_of_N 9)
  else if (n =? 110)%N then Some (ascii_of_N 10)
  else if (n =? 102)%N then Some (ascii_of_N 12)
  else if (n =? 114)%N then Some (ascii_of_N 13)
  else None.

Definition hex4 (a b c d : ascii) : option N :=
  match hex_value a, hex_value b, hex_value c, hex_value d with
  | Some x, Some y, Some z, Some w => Some (((x * 16 + y) * 16 + z) * 16 + w)%N
  | _, _, _, _ => None
  end.

Definition cons_char (c : ascii) (r : option (string * string)) :
  option (string * string) :=
  match r with
  | Some (t, rest) => Some (String c t, rest)
  | None => None
  end.

(** Reads the characters of a string literal after its opening quote, up to
    and including the closing quote.  A [\uXXXX] escape above U+007F is
    outside the modelled fragment and is refused. *)
Fixpoint parse_chars (s : string) : option (string * string) :=
  match s with
  | EmptyString => None
  | String c s' =>
      if Ascii.eqb c dquote then Some (EmptyString, s')
      else if Ascii.eqb c bslash then
        match s' with
        | String e s'' =>
            if Ascii.eqb e "u" then
              match s'' with
              | String h1 (String h2 (String h3 (String h4 r))) =>
                  match hex4 h1 h2 h3 h4 with
                  | Some code =>
                      if (code <? 128)%N
                      then cons_char (ascii_of_N code) (parse_chars r)
                      else None
                  | None => None
                  end
              | _ => None
              end
            else
              match unescape_simple e with
              | Some ch => cons_char ch (parse_chars s'')
              | None => None
              end
        | EmptyString => None
        end
      else if (N_of_ascii c <? 32)%N then None
      else cons_char c (parse_chars s')
  end.

Definition is_digit (c : ascii) : bool :=
  let n := N_of_ascii c in ((48 <=? n) && (n <=? 57))%N.

Fixpoint span_digits (s : string) : string * string :=
  match s with
  | EmptyString => (EmptyString, EmptyString)
  | String c s' =>
      if is_digit c
      then let '(d, r) := span_digits s' in (String c d, r)
      else (EmptyString, s)
  end.

Definition lex_number (s : string) : string * string :=
  match s with
  | String c s' =>
      if Ascii.eqb c "-"
      then let '(d, r) := span_digits s' in (String c d, r)
      else span_digits s
  | EmptyString => (EmptyString, EmptyString)
  end.

(** An integer literal in canonical form (no leading zero, no [-0]);
    fractions and exponents are outside the modelled fragment. *)
Definition parse_number (s : string) : option (Z * string) :=
  let '(txt, rest) := lex_number s in
  match NilZero.int_of_string txt with
  | Some d =>
      let n := Z.of_int d in
      if String.eqb (print_Z n) txt then Some (n, rest) else None
  | None => None
  end.

Definition expect (lit : string) (v : value) (s : string) :
  option (value * string) :=
  if String.prefix lit s
  then Some (v, String.substring (String.length lit)
                  (String.length s - String.length lit) s)
  else None.

Fixpoint parse_value (fuel : nat) (s : string) {struct fuel} :
  option (value * string) :=
  match fuel with
  | O => None
  | S fuel' =>
      match s with
      | EmptyString => None
      | String c s' =>
          if Ascii.eqb c "n" then expect "ull" VNull s'
          else if Ascii.eqb c "t" then expect "rue" (VBool true) s'
          else if Ascii.eqb c "f" then expect "alse" (VBool false) s'
          else if Ascii.eqb c dquote then
            match parse_chars s' with
            | Some (t, rest) => Some (VStr t, rest)
            | None => None
            end
          else if Ascii.eqb c "[" then
            match s' with
            | String c' r =>
                if Ascii.eqb c' "]" then Some (VArr [], r)
                else
                  match parse_elements fuel' s' with
                  | Some (l, rest) => Some (VArr l, rest)
                  | None => None
                  end
            | EmptyString => None
            end
          else if Ascii.eqb c "{" then
            match s' with
            | String c' r =>
                if Ascii.eqb c' "}" then Some (VObj [], r)
                else
                  match parse_members fuel' s' with
                  | Some (l, rest) => Some (VObj l, rest)
                  | None => None
                  end
            | EmptyString => None
            end
          else
            match parse_number s with
            | Some (n, rest) => Some (VNum n, rest)
            | None => None
            end
      end
  end
with parse_elements (fuel : nat) (s : string) {struct fuel} :
  option (list value * string) :=
  match fuel with
  | O => None
  | S fuel' =>
      match parse_value fuel' s with
      | Some (x, String c r) =>
          if Ascii.eqb c "," then
            match parse_elements fuel' r with
            | Some (l, rest) => Some (x :: l, rest)
            | None => None
            end
          else if Ascii.eqb c "]" then Some ([x], r)
          else None
      | _ => None
      end
  end
with parse_members (fuel : nat) (s : string) {struct fuel} :
  option (list (string * value) * string) :=
  match fuel with
  | O => None
  | S fuel' =>
      match s with
      | String q s' =>
          if Ascii.eqb q dquote then
            match parse_chars s' with
            | Some (k, String colon r) =>
                if Ascii.eqb colon ":" then
                  match parse_value fuel' r with
                  | Some (x, String c r') =>
                      if Ascii.eqb c "," then
                        match parse_members fuel' r' with
                        | Some (l, rest) => Some ((k, x) :: l, rest)
                        | None => None
                        end
                      else if Ascii.eqb c "}" then Some ([(k, x)], r')
                      else None
                  | _ => None
                  end
                else None
            | _ => None
            end
          else None
      | EmptyString => None
      end
  end.

(** [JSON.parse]: on the compact texts of the fragment, [Some v] is the
    value read and [None] stands for the [SyntaxError] it throws.  The text
    must be one value with nothing after it. *)
Definition parse (s : string) : option value :=
  match parse_value (S (String.length s)) s with
  | Some (v, EmptyString) => Some v
  | _ => None
  end.

End JSON.

(** ** JavaScript objects as ordered entry lists *)

Module JS.
Import JSON.

#[local] Set Warnings "-register-all".

Section entries.
Context {A : Type}.

Definition obj_has (k : string) (o : list (string * A)) : bool :=
  existsb (fun kv => String.eqb (fst kv) k) o.

(** Property read [o[k]]; of two entries with one name the later one is
    read, as [JSON.parse] and object literals resolve a repeated name. *)
Fixpoint obj_get (k : string) (o : list (string * A)) : option A :=
  match o with
  | [] => None
  | (k', v) :: o' =>
      match obj_get k o' with
      | Some w => Some w
      | None => if String.eqb k' k then Some v else None
      end
  end.

(** Property write [o[k] = v]: an existing property keeps its place, a new
    one goes last. *)
Definition obj_set (k : string) (v : A) (o : list (string * A)) :
  list (string * A) :=
  if obj_has k o
  then map (fun kv => if String.eqb (fst kv) k then (fst kv, v) else kv) o
  else o ++ [(k, v)].

(** [{ ...target, ...src }] *)
Definition spread (target src : list (string * A)) : list (string * A) :=
  fold_left (fun acc kv => obj_set (fst kv) (snd kv) acc) src target.
End entries.

(** [!!v] *)
Definition truthy (v : value) : bool :=
  match v with
  | VNull => false
  | VBool b => b
  | VNum n => negb (n =? 0)
  | VStr s => Str.nonempty s
  | VArr _ | VObj _ => true
  end.

(** [v.k] as the optional chain [v?.k] reads it: a property of an object,
    nothing ([None], i.e. [undefined]) on [null] and on the other values. *)
Definition prop (k : string) (v : value) : option value :=
  match v with
  | VObj fields => obj_get k fields
  | _ => None
  end.

(** String conversion as a template literal applies it. *)
Fixpoint toString (v : value) : string :=
  match v with
  | VNull => "null"
  | VBool true => "true"
  | VBool false => "false"
  | VNum n => print_Z n
  | VStr s => s
  | VArr items =>
      (fix join (l : list value) : string :=
         match l with
         | [] => EmptyString
         | x :: l' =>
             match x with VNull => EmptyString | _ => toString x end +:+
             match l' with [] => EmptyString | _ => "," +:+ join l' end
         end) items
  | VObj _ => "[object Object]"
  end.

(** Truthiness of what [Storage.getItem] returns. *)
Definition item_truthy (r : option string) : bool :=
  match r with Some s => Str.nonempty s | None => false end.

(** *** Values beyond JSON *)

(** What a property of an object literal can be.  A function or a symbol
    is to [JSON.stringify] what [undefined] is. *)
Inductive jsvalue : Type :=
| JUndefined
| JNull
| JBool (b : bool)
| JNum (n : Z)
| JNaN
| JInfinity (negative : bool)
| JBigInt (n : Z)
| JStr (s : string)
| JArr (items : list jsvalue)
| JObj (fields : list (string * jsvalue)).

Fixpoint of_value (v : value) : jsvalue :=
  match v with
  | VNull => JNull
  | VBool b => JBool b
  | VNum n => JNum n
  | VStr s => JStr s
  | VArr items => JArr (map of_value items)
  | VObj fields => JObj (map (fun '(k, x) => (k, of_value x)) fields)
  end.

(** An object of JSON data, as an object of JavaScript values. *)
Definition data (o : list (string * value)) : list (string * jsvalue) :=
  map (fun '(k, x) => (k, of_value x)) o.

(** What [JSON.stringify] does with a value: it throws a [TypeError], or it
    has nothing to write, or it writes the text of a JSON value. *)
Inductive Serialised : Type :=
| Unserialisable
| Omitted
| Written (v : value).

(** [undefined] is left out of an object and becomes [null] in an array;
    [NaN] and the infinities become [null]; a [BigInt] throws. *)
Fixpoint to_json (v : jsvalue) : Serialised :=
  match v with
  | JUndefined => Omitted
  | JNull => Written VNull
  | JBool b => Written (VBool b)
  | JNum n => Written (VNum n)
  | JNaN => Written VNull
  | JInfinity _ => Written VNull
  | JBigInt _ => Unserialisable
  | JStr s => Written (VStr s)
  | JArr items =>
      match (fix elements (l : list jsvalue) : option (list value) :=
               match l with
               | [] => Some []
               | x :: l' =>
                   match to_json x, elements l' with
                   | Unserialisable, _ => None
                   | _, None => None
                   | Omitted, Some r => Some (VNull :: r)
                   | Written j, Some r => Some (j :: r)
                   end
               end) items with
      | Some l => Written (VArr l)
      | None => Unserialisable
      end
  | JObj fields =>
      match (fix members (l : list (string * jsvalue)) : option (list (string * value)) :=
               match l with
               | [] => Some []
               | (k, x) :: l' =>
                   match to_json x, members l' with
                   | Unserialisable, _ => None
                   | _, None => None
                   | Omitted, Some r => Some r
                   | Written j, Some r => Some ((k, j) :: r)
                   end
               end) fields with
      | Some l => Written (VObj l)
      | None => Unserialisable
      end
  end.

(** [Number.isSafeInteger]: the integers a number holds exactly, and which
    are written in plain decimal. *)
Definition safe_integer (n : Z) : bool := Z.abs n <=? 9007199254740991.

(** The values JSON has a text for: null, booleans, safe integers, strings,
    and arrays and objects of such. *)
Fixpoint is_data (v : jsvalue) : bool :=
  match v with
  | JNull | JBool _ | JStr _ => true
  | JNum n => safe_integer n
  | JArr items => forallb is_data items
  | JObj fields => forallb (fun '(_, x) => is_data x) fields
  | JUndefined | JNaN | JInfinity _ | JBigInt _ => false
  end.

End JS.

(** ** The browser tab *)

Import JSON JS.

Inductive Visibility : Type := Visible | Hidden.

(** Callbacks handed to [setTimeout] by [tabSwitchUtil.ts]. *)
Inductive TimerAction : Type :=
| ClearSwitchMarkers   (* the 2500 ms callback of the visibility listener *)
| ClearPreventRefresh. (* the 5000 ms callback of preventNextTabSwitchRefresh *)

(** The wrappers [window.fetch] can be replaced by.  Each wrapper closes
    over the [window.fetch] it found, so the value of [window.fetch] is the
    list of wrappers around the native primitive, outermost first. *)
Inductive Interceptor : Type := SwitchPrevention | EnsureToken.

(** [init.headers]: a plain object, or a [Headers] instance (names in lower
    case, one value per name). *)
Inductive HeadersInit : Type :=
| PlainHeaders (entries : list (string * string))
| HeadersObject (h : gmap string string).

Record RequestInit : Type := {
  headers : option HeadersInit;
  method : option string;
  body : option string
}.

Inductive RequestInfo : Type :=
| UrlString (url : string)
| UrlObject (href : string)
| RequestObject (url : string) (own : gmap string string).

Record World : Type := {
  localStorage : gmap string string;
  sessionStorage : gmap string string;
  bodyClasses : gset string;
  visibilityState : Visibility;
  pathname : string;
  origin : string;
  supabaseUrl : option string;      (* process.env.NEXT_PUBLIC_SUPABASE_URL *)
  now : Z;                          (* Date.now() *)
  entropy : list string;            (* Math.random().toString(36).slice(2, 11) *)
  timers : list (Z * TimerAction);  (* pending setTimeout callbacks and when due *)
  fetchChain : list Interceptor;    (* window.fetch *)
  visibilityListeners : nat;        (* registered copies of the listener *)
  network : list (RequestInfo * option RequestInit); (* calls of the native fetch *)
  cacheNames : option (list string);   (* caches.keys(), when the facility exists *)
  idbNames : option (list string)      (* indexedDB.databases() *)
}.

Definition with_localStorage (ls : gmap string string) (w : World) : World :=
  {| localStorage := ls; sessionStorage := sessionStorage w;
     bodyClasses := bodyClasses w; visibilityState := visibilityState w;
     pathname := pathname w; origin := origin w; supabaseUrl := supabaseUrl w;
     now := now w; entropy := entropy w; timers := timers w;
     fetchChain := fetchChain w; visibilityListeners := visibilityListeners w;
     network := network w; cacheNames := cacheNames w; idbNames := idbNames w |}.

Definition with_sessionStorage (ss : gmap string string) (w : World) : World :=
  {| localStorage := localStorage w; sessionStorage := ss;
     bodyClasses := bodyClasses w; visibilityState := visibilityState w;
     pathname := pathname w; origin := origin w; supabaseUrl := supabaseUrl w;
     now := now w; entropy := entropy w; timers := timers w;
     fetchChain := fetchChain w; visibilityListeners := visibilityListeners w;
     network := network w; cacheNames := cacheNames w; idbNames := idbNames w |}.

Definition with_bodyClasses (cs : gset string) (w : World) : World :=
  {| localStorage := localStorage w; sessionStorage := sessionStorage w;
     bodyClasses := cs; visibilityState := visibilityState w;
     pathname := pathname w; origin := origin w; supabaseUrl := supabaseUrl w;
     now := now w; entropy := entropy w; timers := timers w;
     fetchChain := fetchChain w; visibilityListeners := visibilityListeners w;
     network := network w; cacheNames := cacheNames w; idbNames := idbNames w |}.

Definition with_visibilityState (v : Visibility) (w : World) : World :=
  {| localStorage := localStorage w; sessionStorage := sessionStorage w;
     bodyClasses := bodyClasses w; visibilityState := v;
     pathname := pathname w; origin := origin w; supabaseUrl := supabaseUrl w;
     now := now w; entropy := entropy w; timers := timers w;
     fetchChain := fetchChain w; visibilityListeners := visibilityListeners w;
     network := network w; cacheNames := cacheNames w; idbNames := idbNames w |}.

Definition with_pathname (p : string) (w : World) : World :=
  {| localStorage := localStorage w; sessionStorage := sessionStorage w;
     bodyClasses := bodyClasses w; visibilityState := visibilityState w;
     pathname := p; origin := origin w; supabaseUrl := supabaseUrl w;
     now := now w; entropy := entropy w; timers := timers w;
     fetchChain := fetchChain w; visibilityListeners := visibilityListeners w;
     network := network w; cacheNames := cacheNames w; idbNames := idbNames w |}.

Definition with_now (t : Z) (w : World) : World :=
  {| localStorage := localStorage w; sessionStorage := sessionStorage w;
     bodyClasses := bodyClasses w; visibilityState := visibilityState w;
     pathname := pathname w; origin := origin w; supabaseUrl := supabaseUrl w;
     now := t; entropy := entropy w; timers := timers w;
     fetchChain := fetchChain w; visibilityListeners := visibilityListeners w;
     network := network w; cacheNames := cacheNames w; idbNames := idbNames w |}.

Definition with_entropy (e : list string) (w : World) : World :=
  {| localStorage := localStorage w; sessionStorage := sessionStorage w;
     bodyClasses := bodyClasses w; visibilityState := visibilityState w;
     pathname := pathname w; origin := origin w; supabaseUrl := supabaseUrl w;
     now := now w; entropy := e; timers := timers w;
     fetchChain := fetchChain w; visibilityListeners := visibilityListeners w;
     network := network w; cacheNames := cacheNames w; idbNames := idbNames w |}.

Definition with_timers (ts : list (Z * TimerAction)) (w : World) : World :=
  {| localStorage := localStorage w; sessionStorage := sessionStorage w;
     bodyClasses := bodyClasses w; visibilityState := visibilityState w;
     pathname := pathname w; origin := origin w; supabaseUrl := supabaseUrl w;
     now := now w; entropy := entropy w; timers := ts;
     fetchChain := fetchChain w; visibilityListeners := visibilityListeners w;
     network := network w; cacheNames := cacheNames w; idbNames := idbNames w |}.

Definition with_fetchChain (c : list Interceptor) (w : World) : World :=
  {| localStorage := localStorage w; sessionStorage := sessionStorage w;
     bodyClasses := bodyClasses w; visibilityState := visibilityState w;
     pathname := pathname w; origin := origin w; supabaseUrl := supabaseUrl w;
     now := now w; entropy := entropy w; timers := timers w;
     fetchChain := c; visibilityListeners := visibilityListeners w;
     network := network w; cacheNames := cacheNames w; idbNames := idbNames w |}.

Definition with_visibilityListeners (n : nat) (w : World) : World :=
  {| localStorage := localStorage w; sessionStorage := sessionStorage w;
     bodyClasses := bodyClasses w; visibilityState := visibilityState w;
     pathname := pathname w; origin := origin w; supabaseUrl := supabaseUrl w;
     now := now w; entropy := entropy w; timers := timers w;
     fetchChain := fetchChain w; visibilityListeners := n;
     network := network w; cacheNames := cacheNames w; idbNames := idbNames w |}.

Definition with_network (n : list (RequestInfo * option RequestInit)) (w : World) : World :=
  {| localStorage := localStorage w; sessionStorage := sessionStorage w;
     bodyClasses := bodyClasses w; visibilityState := visibilityState w;
     pathname := pathname w; origin := origin w; supabaseUrl := supabaseUrl w;
     now := now w; entropy := entropy w; timers := timers w;
     fetchChain := fetchChain w; visibilityListeners := visibilityListeners w;
     network := n; cacheNames := cacheNames w; idbNames := idbNames w |}.

Definition with_cacheNames (c : option (list string)) (w : World) : World :=
  {| localStorage := localStorage w; sessionStorage := sessionStorage w;
     bodyClasses := bodyClasses w; visibilityState := visibilityState w;
     pathname := pathname w; origin := origin w; supabaseUrl := supabaseUrl w;
     now := now w; entropy := entropy w; timers := timers w;
     fetchChain := fetchChain w; visibilityListeners := visibilityListeners w;
     network := network w; cacheNames := c; idbNames := idbNames w |}.

Definition with_idbNames (c : option (list string)) (w : World) : World :=
  {| localStorage := localStorage w; sessionStorage := sessionStorage w;
     bodyClasses := bodyClasses w; visibilityState := visibilityState w;
     pathname := pathname w; origin := origin w; supabaseUrl := supabaseUrl w;
     now := now w; entropy := entropy w; timers := timers w;
     fetchChain := fetchChain w; visibilityListeners := visibilityListeners w;
     network := network w; cacheNames := cacheNames w; idbNames := c |}.

(** The execution context: [Server] is the one without [window]. *)
Inductive Env : Type := Server | Browser (w : World).

(** ** [tabSwitchUtil.ts], inside a browser *)

Definition TAB_STATE_KEY : string := "aditi_tab_state".
Definition RETURNING_FLAG : string := "returning_from_tab_switch".
Definition PREVENT_REFRESH : string := "prevent_auto_refresh".
Definition TAB_ACTIVE_CLASS : string := "tab-just-activated".
Definition TAB_ID_KEY : string := "aditi_tab_id".
Definition AUTH_TOKEN_KEY : string := "aditi_supabase_auth".

Module Tab.

(** [Math.random().toString(36).slice(2, 11)]: the next draw, and the
    empty suffix (the draw [0]) once the supply is used up. *)
Definition random_suffix (w : World) : string * World :=
  match entropy w with
  | [] => (EmptyString, w)
  | r :: rest => (r, with_entropy rest w)
  end.

Definition getTabId (w : World) : string * World :=
  match sessionStorage w !! TAB_ID_KEY with
  | Some tabId =>
      if Str.nonempty tabId then (tabId, w)
      else
        let '(r, w1) := random_suffix w in
        let tabId := "tab_" +:+ print_Z (now w) +:+ "_" +:+ r in
        (tabId, with_sessionStorage (<[TAB_ID_KEY := tabId]> (sessionStorage w1)) w1)
  | None =>
      let '(r, w1) := random_suffix w in
      let tabId := "tab_" +:+ print_Z (now w) +:+ "_" +:+ r in
      (tabId, with_sessionStorage (<[TAB_ID_KEY := tabId]> (sessionStorage w1)) w1)
  end.

(** [parsedData?.access_token || null], with [VNull] for [null]; a parse
    error is caught and gives [null]. *)
Definition getAuthToken (w : World) : value :=
  match localStorage w !! AUTH_TOKEN_KEY with
  | Some authData =>
      if Str.nonempty authData then
        match JSON.parse authData with
        | Some parsedData =>
            match prop "access_token" parsedData with
            | Some t => if truthy t then t else VNull
            | None => VNull
            end
        | None => VNull
        end
      else VNull
  | None => VNull
  end.

Definition isReturningFromTabSwitch (w : World) : bool :=
  item_truthy (sessionStorage w !! RETURNING_FLAG) ||
  item_truthy (sessionStorage w !! PREVENT_REFRESH) ||
  bool_decide (TAB_ACTIVE_CLASS ∈ bodyClasses w) ||
  bool_decide ("dashboard-tab-active" ∈ bodyClasses w).

Definition setTimeout (a : TimerAction) (delay : Z) (w : World) : World :=
  with_timers (timers w ++ [(now w + delay, a)]) w.

Definition preventNextTabSwitchRefresh (w : World) : World :=
  let w0 :=
    with_sessionStorage (<[PREVENT_REFRESH := print_Z (now w)]> (sessionStorage w)) w in
  let '(tabId, w1) := getTabId w0 in
  let tabState :=
    [("tabId", VStr tabId); ("lastActive", VNum (now w1)); ("route", VStr (pathname w1))] in
  let w2 :=
    with_localStorage
      (<[TAB_STATE_KEY := JSON.stringify (VObj tabState)]> (localStorage w1)) w1 in
  setTimeout ClearPreventRefresh 5000 w2.

(** The fresh record of [saveTabState] before [...additionalData]. *)
Definition freshTabState (tabId : string) (w : World) : list (string * value) :=
  [("tabId", VStr tabId); ("lastActive", VNum (now w));
   ("route", VStr (pathname w)); ("authToken", getAuthToken w)].

(** [saveTabState] for an [additionalData] of JSON data; for any other see
    [saveTabState_any] below, which agrees with it on JSON data. *)
Definition saveTabState (additionalData : list (string * value)) (w : World) : World :=
  let '(tabId, w1) := getTabId w in
  let tabState := spread (freshTabState tabId w1) additionalData in
  with_localStorage
    (<[TAB_STATE_KEY := JSON.stringify (VObj tabState)]> (localStorage w1)) w1.

(** [saveTabState] for whatever own properties [additionalData] has.
    [Tab.saveTabState] is this function on JSON data.  Where
    [JSON.stringify] throws, the [catch] logs and nothing is stored; the tab
    id has been fetched by then. *)
Definition saveTabState_any (additionalData : list (string * jsvalue)) (w : World) :
    World :=
  let '(tabId, w1) := getTabId w in
  let tabState := spread (data (freshTabState tabId w1)) additionalData in
  match to_json (JObj tabState) with
  | Written record =>
      with_localStorage
        (<[TAB_STATE_KEY := JSON.stringify record]> (localStorage w1)) w1
  | _ => w1
  end.

(** [null] is [VNull]; corrupt text is caught and gives [null]. *)
Definition restoreTabState (w : World) : value :=
  match localStorage w !! TAB_STATE_KEY with
  | Some savedState =>
      if Str.nonempty savedState then
        match JSON.parse savedState with
        | Some v => v
        | None => VNull
        end
      else VNull
  | None => VNull
  end.

(** *** [Headers] *)

Definition Headers_append (name val : string) (h : gmap string string) :
  gmap string string :=
  match h !! Str.lower name with
  | Some old => <[Str.lower name := old +:+ ", " +:+ val]> h
  | None => <[Str.lower name := val]> h
  end.

(** [new Headers(init || {})] *)
Definition Headers_new (init : option HeadersInit) : gmap string string :=
  match init with
  | None => ∅
  | Some (PlainHeaders l) =>
      fold_left (fun h kv => Headers_append (fst kv) (snd kv) h) l ∅
  | Some (HeadersObject h) => h
  end.

Definition Headers_has (name : string) (h : gmap string string) : bool :=
  bool_decide (is_Some (h !! Str.lower name)).

Definition Headers_set (name val : string) (h : gmap string string) :
  gmap string string := <[Str.lower name := val]> h.

(** *** The two [fetch] wrappers *)

Definition Request : Type := (RequestInfo * option RequestInit)%type.

Definition bearer (token : value) : string := "Bearer " +:+ toString token.

(** Own enumerable properties of [args[1].headers || {}], as the object
    spread copies them: a [Headers] instance has none. *)
Definition spreadable (h : option HeadersInit) : list (string * string) :=
  match h with
  | Some (PlainHeaders l) => spread [] l
  | _ => []
  end.

(** The wrapper installed by [applySwitchPreventionToFetch] (lines 139-151). *)
Definition switchPrevention_pass (w : World) (req : Request) : Request :=
  match snd req with
  | Some init =>
      let token := getAuthToken w in
      if truthy token then
        (fst req,
         Some {| headers :=
                   Some (PlainHeaders
                           (obj_set "Authorization" (bearer token)
                              (spreadable (headers init))));
                 method := method init; body := body init |})
      else req
  | None => req
  end.

Definition request_url (input : RequestInfo) : string :=
  match input with
  | UrlString url => url
  | UrlObject href => href
  | RequestObject url _ => url
  end.

Definition isSameOrigin (w : World) (url : string) : bool :=
  Str.startsWith "/" url || Str.startsWith (origin w) url.

Definition isSupabaseCall (w : World) (url : string) : bool :=
  Str.includes (match supabaseUrl w with Some u => u | None => EmptyString end) url.

(** The wrapper installed by [ensureTokenInRequests] (lines 185-212). *)
Definition ensureToken_pass (w : World) (req : Request) : Request :=
  let updatedInit :=
    match snd req with
    | Some init => init
    | None => {| headers := None; method := None; body := None |}
    end in
  let token := getAuthToken w in
  let url := request_url (fst req) in
  if (isSameOrigin w url || isSupabaseCall w url) && truthy token then
    let h := Headers_new (headers updatedInit) in
    let h :=
      if Headers_has "Authorization" h || Headers_has "authorization" h
      then h
      else Headers_set "Authorization" (bearer token) h in
    (fst req,
     Some {| headers := Some (HeadersObject h);
             method := method updatedInit; body := body updatedInit |})
  else (fst req, Some updatedInit).

Definition pass (i : Interceptor) (w : World) (req : Request) : Request :=
  match i with
  | SwitchPrevention => switchPrevention_pass w req
  | EnsureToken => ensureToken_pass w req
  end.

(** A request travels through the wrappers from the outermost to the
    native primitive. *)
Fixpoint through (chain : list Interceptor) (w : World) (req : Request) : Request :=
  match chain with
  | [] => req
  | i :: inner => through inner w (pass i w req)
  end.

(** A call of [window.fetch(input, init)]: the native primitive receives
    what the wrappers hand down, once. *)
Definition fetch (input : RequestInfo) (init : option RequestInit) (w : World) : World :=
  with_network (network w ++ [through (fetchChain w) w (input, init)]) w.

(** The [Authorization] header a request goes out with: [init.headers]
    when given (they replace those of a [Request] input), else the
    [Request]'s own. *)
Definition sentAuthorization (req : Request) : option string :=
  let own :=
    match fst req with
    | RequestObject _ h => h !! "authorization"
    | _ => None
    end in
  match snd req with
  | Some init =>
      match headers init with
      | Some h => Headers_new (Some h) !! "authorization"
      | None => own
      end
  | None => own
  end.

(** All the headers a request goes out with, by the same rule. *)
Definition sentHeaders (req : Request) : gmap string string :=
  let own :=
    match fst req with
    | RequestObject _ h => h
    | _ => ∅
    end in
  match snd req with
  | Some init =>
      match headers init with
      | Some h => Headers_new (Some h)
      | None => own
      end
  | None => own
  end.

Definition ensureTokenInRequests (w : World) : World :=
  with_fetchChain (EnsureToken :: fetchChain w) w.

(** The [history.pushState] / [replaceState] overrides only forward their
    arguments and are left out. *)
Definition applySwitchPreventionToFetch (w : World) : World :=
  with_visibilityListeners (S (visibilityListeners w))
    (with_fetchChain (SwitchPrevention :: fetchChain w) w).

(** *** The visibility listener and its timers *)

Definition onVisibilityChange (w : World) : World :=
  match visibilityState w with
  | Visible =>
      let w1 := saveTabState [("lastVisible", VNum (now w))] w in
      setTimeout ClearSwitchMarkers 2500 w1
  | Hidden => saveTabState [("lastHidden", VNum (now w))] w
  end.

Definition run_action (a : TimerAction) (w : World) : World :=
  match a with
  | ClearSwitchMarkers =>
      with_bodyClasses (bodyClasses w ∖ {[TAB_ACTIVE_CLASS]})
        (with_sessionStorage (delete RETURNING_FLAG (sessionStorage w)) w)
  | ClearPreventRefresh =>
      with_sessionStorage (delete PREVENT_REFRESH (sessionStorage w)) w
  end.

(** The document fires [visibilitychange] with the new state; every
    registered copy of the listener of this file runs.  The application's
    whole event, with the handler of [AuthProvider], is
    [documentVisibilityChange] below. *)
Definition visibilitychange (v : Visibility) (w : World) : World :=
  Nat.iter (visibilityListeners w) onVisibilityChange (with_visibilityState v w).

Definition is_due (t : Z) (tm : Z * TimerAction) : bool := fst tm <=? t.

(** [ms] milliseconds pass: the callbacks due by then run (both kinds only
    remove, so their order among themselves does not show). *)
Definition elapse (ms : N) (w : World) : World :=
  let t := now w + Z.of_N ms in
  fold_left (fun w tm => run_action (snd tm) w)
    (List.filter (is_due t) (timers w))
    (with_timers (List.filter (fun tm => negb (is_due t tm)) (timers w)) (with_now t w)).

End Tab.

(** *** The exported functions, with their [typeof window] guard *)

Definition getTabId (e : Env) : string * Env :=
  match e with
  | Server => (EmptyString, Server)
  | Browser w => let '(tabId, w') := Tab.getTabId w in (tabId, Browser w')
  end.

Definition getAuthToken (e : Env) : value :=
  match e with Server => VNull | Browser w => Tab.getAuthToken w end.

Definition isReturningFromTabSwitch (e : Env) : bool :=
  match e with Server => false | Browser w => Tab.isReturningFromTabSwitch w end.

Definition preventNextTabSwitchRefresh (e : Env) : Env :=
  match e with Server => Server | Browser w => Browser (Tab.preventNextTabSwitchRefresh w) end.

Definition saveTabState (additionalData : list (string * value)) (e : Env) : Env :=
  match e with Server => Server | Browser w => Browser (Tab.saveTabState additionalData w) end.

Definition saveTabState_any (additionalData : list (string * jsvalue)) (e : Env) : Env :=
  match e with
  | Server => Server
  | Browser w => Browser (Tab.saveTabState_any additionalData w)
  end.

Definition restoreTabState (e : Env) : value :=
  match e with Server => VNull | Browser w => Tab.restoreTabState w end.

Definition applySwitchPreventionToFetch (e : Env) : Env :=
  match e with Server => Server | Browser w => Browser (Tab.applySwitchPreventionToFetch w) end.

Definition ensureTokenInRequests (e : Env) : Env :=
  match e with Server => Server | Browser w => Browser (Tab.ensureTokenInRequests w) end.

(** ** [authContext.tsx]: the session parts of [AuthProvider] *)

Definition USER_CACHE_KEY : string := "aditi_user_cache".

Inductive UserRole : Type := RoleUser | RoleManager | RoleAdmin.

Record User : Type := {
  userId : string;          (* id *)
  email : string;
  name : string;
  role : UserRole;
  teamId : option string;
  teamName : option string;
  lastChecked : Z
}.

(** The component state ([useState]) and what it hands to the UI. *)
Record AuthState : Type := {
  user : option User;
  isLoading : bool;
  toasts : list string;        (* toast.success messages, oldest first *)
  reloadIn : option Z          (* delay of the pending location.replace('/') *)
}.

Definition setUser (u : option User) (a : AuthState) : AuthState :=
  {| user := u; isLoading := isLoading a; toasts := toasts a; reloadIn := reloadIn a |}.

Definition setIsLoading (b : bool) (a : AuthState) : AuthState :=
  {| user := user a; isLoading := b; toasts := toasts a; reloadIn := reloadIn a |}.

Definition toast_success (msg : string) (a : AuthState) : AuthState :=
  {| user := user a; isLoading := isLoading a; toasts := toasts a ++ [msg];
     reloadIn := reloadIn a |}.

Definition scheduleReload (delay : Z) (a : AuthState) : AuthState :=
  {| user := user a; isLoading := isLoading a; toasts := toasts a;
     reloadIn := Some delay |}.

(** *** The remote auth collaborator, as seen from this layer *)

(** What an awaited call comes back with. *)
Inductive Answer (A : Type) : Type :=
| Throws
| Returns (a : A).
Arguments Throws {A}.
Arguments Returns {A} a.

(** [session.user] of the collaborator. *)
Record AuthUser : Type := {
  authId : string;
  authEmail : option string;
  metadataName : option string     (* user_metadata?.name *)
}.

Record Session : Type := { sessionUser : option AuthUser }.

(** [supabase.auth.getSession()]: it throws, or returns an error, or
    returns [data.session] (possibly [null]). *)
Inductive SessionResponse : Type :=
| SessionThrows
| SessionError
| SessionData (session : option Session).

(** The three table look-ups of [updateUserData]: is there an admin row, are
    there manager rows, and the team-member row ([team_id] and the joined
    [team_name]). *)
Record Lookups : Type := {
  adminRow : Answer bool;
  managerRows : Answer bool;
  memberRow : Answer (option (string * option string))
}.

Definition role_text (r : UserRole) : string :=
  match r with RoleUser => "user" | RoleManager => "manager" | RoleAdmin => "admin" end.

Definition optional (k : string) (o : option string) : list (string * value) :=
  match o with Some s => [(k, VStr s)] | None => [] end.

(** The object [JSON.stringify] sees for a [User]; an [undefined] field is
    not written. *)
Definition user_json (u : User) : value :=
  VObj ([("id", VStr (userId u)); ("email", VStr (email u)); ("name", VStr (name u));
         ("role", VStr (role_text (role u)))]
        ++ optional "teamId" (teamId u) ++ optional "teamName" (teamName u)
        ++ [("lastChecked", VNum (lastChecked u))]).

Definition truthy_text (o : option string) : option string :=
  match o with
  | Some s => if Str.nonempty s then Some s else None
  | None => None
  end.

Definition resolve_role (db : Lookups) : UserRole :=
  match adminRow db with
  | Returns true => RoleAdmin
  | Returns false =>
      match managerRows db with
      | Returns true => RoleManager
      | _ => RoleUser
      end
  | Throws => RoleUser
  end.

Definition display_name (metaName : option string) (mail : string) : string :=
  match truthy_text metaName with
  | Some n => n
  | None =>
      match truthy_text (Some (Str.before "@" mail)) with
      | Some n => n
      | None => "User"
      end
  end.

Definition Page : Type := (World * AuthState)%type.

(** [updateUserData(authUser, showLoading)] with its look-ups answered. *)
Definition updateUserData (authUser : option AuthUser) (showLoading : bool)
    (db : Lookups) (p : Page) : Page :=
  let '(w, a) := p in
  let a := if showLoading then setIsLoading true a else a in
  let '(w, a) :=
    match authUser with
    | Some au =>
        match truthy_text (authEmail au) with
        | Some mail =>
            let team :=
              match memberRow db with Returns (Some t) => Some t | _ => None end in
            let updatedUser :=
              {| userId := authId au; email := mail;
                 name := display_name (metadataName au) mail;
                 role := resolve_role db;
                 teamId := option_map fst team;
                 teamName := match team with Some (_, n) => n | None => None end;
                 lastChecked := now w |} in
            (with_localStorage
               (<[USER_CACHE_KEY := JSON.stringify (user_json updatedUser)]>
                  (localStorage w)) w,
             setUser (Some updatedUser) a)
        | None => (w, setUser None a)
        end
    | None => (w, setUser None a)
    end in
  (w, if showLoading then setIsLoading false a else a).

(** [checkSessionQuietly], lines 137-160, once [getSession] has answered. *)
Definition checkSessionQuietly (r : SessionResponse) (db : Lookups) (p : Page) : Page :=
  let '(w, a) := p in
  match r with
  | SessionThrows => p
  | SessionError =>
      (with_localStorage (delete USER_CACHE_KEY (localStorage w)) w, setUser None a)
  | SessionData (Some {| sessionUser := Some au |}) =>
      updateUserData (Some au) false db p
  | SessionData (Some {| sessionUser := None |}) => p
  | SessionData None =>
      match user a with
      | Some _ =>
          let cachedUser := localStorage w !! USER_CACHE_KEY in
          if negb (item_truthy cachedUser)
          then (with_localStorage (delete USER_CACHE_KEY (localStorage w)) w,
                setUser None a)
          else
            match visibilityState w with
            | Hidden => p   (* logs 'Preserving user during tab switch' *)
            | Visible => p
            end
      | None => p
      end
  end.

(** *** The visibility handler of [AuthProvider], lines 71-109 *)

(** What [handleVisibilityChange] writes to the stores; [u] is the [user]
    the handler closed over.  On a show it then takes the identity from the
    cached record when it has none, and calls [checkSessionQuietly] 500 ms
    later: the first touches the component state only, the second is the
    event [EvRevalidated] below. *)
Definition handleVisibilityChange (u : option User) (w : World) : World :=
  match visibilityState w with
  | Visible =>
      Tab.saveTabState_any
        [("hasAuth", JBool (match u with Some _ => true | None => false end));
         ("authTimestamp", JNum (now w));
         ("userEmail", match u with Some usr => JStr (email usr) | None => JUndefined end)]
        w
  | Hidden =>
      match u with
      | Some usr =>
          Tab.saveTabState_any
            [("hasAuth", JBool true); ("hiddenWithAuth", JBool true);
             ("userEmail", JStr (email usr))]
            w
      | None => w
      end
  end.

(** The document fires [visibilitychange] in the application: the
    listeners of [tabSwitchUtil], registered for the capture phase, run
    first, the handler of [AuthProvider] after them. *)
Definition documentVisibilityChange (u : option User) (v : Visibility) (w : World) :
    World :=
  handleVisibilityChange u (Tab.visibilitychange v w).

(** *** [signOut], lines 292-560 *)

(** The calls of the [try] body that no inner [try] guards and that can
    raise; any one of them may, once.  The awaited [router.push] rejects
    when the navigation fails; the other three are kept for the universal
    statements.  The state setters that open the body do not raise. *)
Inductive FaultPoint : Type :=
| AtGarbageCollect    (* line 427, after the local clean-up *)
| AtToast             (* line 497 *)
| AtRouterPush        (* line 501 *)
| AtSetTimeout.       (* line 510 *)

Global Instance FaultPoint_eq_dec : EqDecision FaultPoint.
Proof. solve_decision. Defined.

(** What sign-out meets outside this function.  How each awaited call of
    the collaborator answers ([Returns true]: with an error, resp. with a
    session still there).  What happens to the browser state while its
    [n]-th call is pending (0-2: the three sign-outs, 3: [getSession], 4:
    the corrective sign-out): the collaborator's own writes, and whatever
    handler of the page runs before the call resolves.  Which deletions of
    a cache and of a database have taken effect when sign-out ends. *)
Record Remote : Type := {
  signOutGlobal : Answer bool;
  signOutLocal : Answer bool;
  signOutDefault : Answer bool;
  verifySession : Answer bool;
  signOutAgain : Answer bool;
  meanwhile : nat -> World -> World;
  cacheGone : string -> bool;
  databaseGone : string -> bool
}.

(** The sweep patterns of steps 1 and 2, and of the emergency path. *)
Definition durable_pattern (key : string) : bool :=
  Str.startsWith "sb-" key || Str.startsWith "supabase" key ||
  Str.includes "auth" key || Str.includes "session" key ||
  Str.includes "token" key || Str.includes "user" key ||
  Str.includes "aditi" key || Str.includes "login" key ||
  Str.includes "password" key || Str.includes "cache" key ||
  Str.includes "state" key.

Definition volatile_pattern (key : string) : bool :=
  Str.startsWith "sb-" key || Str.startsWith "supabase" key ||
  Str.includes "auth" key || Str.includes "session" key ||
  Str.includes "token" key || Str.includes "user" key ||
  Str.includes "aditi" key || Str.includes "login" key ||
  Str.includes "cache" key || Str.includes "state" key.

Definition emergency_pattern (key : string) : bool :=
  Str.includes "aditi" key || Str.includes "sb-" key || Str.includes "supabase" key.

Definition database_pattern (dbname : string) : bool :=
  Str.includes "supabase" dbname || Str.includes "auth" dbname ||
  Str.includes "aditi" dbname.

(** [keys.forEach(key => storage.removeItem(key))] *)
Definition removeItems (keys : list string) (m : gmap string string) :
  gmap string string := fold_left (fun m k => delete k m) keys m.

(** [Object.keys(storage).forEach(key => { if (pat(key)) storage.removeItem(key) })] *)
Definition sweep (pat : string -> bool) (m : gmap string string) : gmap string string :=
  filter (fun kv => pat (fst kv) = false) m.

(** [criticalKeys.forEach(key => { if (storage.getItem(key)) storage.removeItem(key) })] *)
Definition removeIfSet (keys : list string) (m : gmap string string) :
  gmap string string :=
  fold_left (fun m k => if item_truthy (m !! k) then delete k m else m) keys m.

(** State with exceptions: a computation ends normally or by a throw, and
    keeps the state it reached either way. *)
Inductive Outcome : Type := Done | Thrown.
Definition Action : Type := Page -> Page * Outcome.

Definition act (f : Page -> Page) : Action := fun p => (f p, Done).
Definition and_then (m k : Action) : Action :=
  fun p => match m p with (p', Done) => k p' | (p', Thrown) => (p', Thrown) end.
Definition try_catch (m handler : Action) : Action :=
  fun p => match m p with (p', Done) => (p', Done) | (p', Thrown) => handler p' end.
Definition try_finally (m : Action) (f : Page -> Page) : Action :=
  fun p => let '(p', o) := m p in (f p', o).
Definition skip : Action := act (fun p => p).

Declare Scope action_scope.
Delimit Scope action_scope with action.
Notation "m ;; k" := (and_then m k) (at level 100, k at level 200, right associativity) : action_scope.

Definition on_world (f : World -> World) (p : Page) : Page := (f (fst p), snd p).
Definition on_auth (f : AuthState -> AuthState) (p : Page) : Page := (fst p, f (snd p)).
Definition on_durable (f : gmap string string -> gmap string string) : Page -> Page :=
  on_world (fun w => with_localStorage (f (localStorage w)) w).
Definition on_volatile (f : gmap string string -> gmap string string) : Page -> Page :=
  on_world (fun w => with_sessionStorage (f (sessionStorage w)) w).

(** Step 1, lines 301-339. *)
Definition clearLocalStorage : Page -> Page :=
  on_durable (fun ls =>
    sweep durable_pattern
      (removeItems [USER_CACHE_KEY; "aditi_supabase_auth"; "aditi_tab_state";
                    "bypass_team_check"] ls)).

(** Step 2, lines 341-376. *)
Definition clearSessionStorage : Page -> Page :=
  on_volatile (fun ss =>
    sweep volatile_pattern
      (removeItems ["aditi_tab_id"; "returning_from_tab_switch";
                    "prevent_auto_refresh"] ss)).

(** Steps 3 and 4, lines 378-420, each inside its own [try]: deletion is
    asked for every cache, and for the databases whose name matches; a
    failure is logged or ignored, and a database request is not awaited.
    [cacheGone] and [databaseGone] say which deletions have taken effect. *)
Definition clearCachesAndDatabases (cacheGone databaseGone : string -> bool) :
    Page -> Page :=
  on_world (fun w =>
    with_idbNames
      (option_map
         (List.filter
            (fun n => negb (Str.nonempty n && database_pattern n && databaseGone n)))
         (idbNames w))
      (with_cacheNames
         (option_map (List.filter (fun n => negb (cacheGone n))) (cacheNames w)) w)).

(** Step 8, lines 485-495. *)
Definition recheckCriticalKeys : Page -> Page :=
  on_durable (removeIfSet [USER_CACHE_KEY; "aditi_supabase_auth"]).

Section SignOut.
Variable fault : option FaultPoint.
Variable remote : Remote.

(** An unguarded call: it raises when it is the faulty one. *)
Definition call (pt : FaultPoint) : Action :=
  fun p => (p, if bool_decide (fault = Some pt) then Thrown else Done).

(** An awaited collaborator call inside its own [try]/[catch]: whatever
    it answers, the pipeline goes on, in the state the page has by then. *)
Definition awaited (n : nat) : Page -> Page := on_world (meanwhile remote n).

(** Step 6, lines 433-466: global, local and default sign-out. *)
Definition supabaseSignOut (p : Page) : Page := awaited 2 (awaited 1 (awaited 0 p)).

(** Step 7, lines 468-483: ask for the session once more, and sign out
    again if one is still reported. *)
Definition verifySignedOut (p : Page) : Page :=
  match verifySession remote with
  | Returns true => awaited 4 (awaited 3 p)
  | _ => awaited 3 p
  end.

(** [if (router.pathname !== '/') router.push('/')]; only the awaited
    one of the [try] body can raise into [signOut]. *)
Definition router_push_home (awaits : bool) : Action :=
  fun p =>
    if String.eqb (pathname (fst p)) "/" then (p, Done)
    else ((if awaits then call AtRouterPush else skip) ;;
          act (on_world (with_pathname "/")))%action p.

Definition signOut_body : Action :=
  (act (on_auth (setIsLoading true)) ;;
   act (on_auth (setUser None)) ;;
   act clearLocalStorage ;;
   act clearSessionStorage ;;
   act (clearCachesAndDatabases (cacheGone remote) (databaseGone remote)) ;;
   (* step 5 *)
   call AtGarbageCollect ;;
   act supabaseSignOut ;;
   act verifySignedOut ;;
   act recheckCriticalKeys ;;
   call AtToast ;;
   act (on_auth (toast_success "Signed out successfully with aggressive cleanup")) ;;
   router_push_home true ;;
   (* step 9 *)
   call AtSetTimeout ;; act (on_auth (scheduleReload 500)))%action.

(** The [catch] block.  Its inner [catch] is entered only when a storage
    call raises, which this model of storage leaves out. *)
Definition signOut_emergency : Action :=
  (act (on_auth (setUser None)) ;;
   act (on_durable (sweep emergency_pattern)) ;;
   act (on_auth (toast_success "Emergency signout completed")) ;;
   router_push_home false ;;
   act (on_auth (scheduleReload 1000)))%action.

Definition signOut (p : Page) : Page :=
  fst (try_finally (try_catch signOut_body signOut_emergency)
         (on_auth (setIsLoading false)) p).
End SignOut.

(** ** The life of one tab as a sequence of events *)

(** The document becomes hidden or visible, time passes, or a quiet
    revalidation completes with some answer.  On a hide or a show the
    listeners of [tabSwitchUtil] run; the handler of [AuthProvider], which
    calls [saveTabState] and so touches neither the two flags, the DOM
    marker nor the timers these events are about, is left out of them. *)
Inductive Event : Type :=
| EvHide
| EvShow
| EvElapse (ms : N)
| EvRevalidated (r : SessionResponse) (db : Lookups).

Definition step (ev : Event) (p : Page) : Page :=
  match ev with
  | EvHide => (Tab.visibilitychange Hidden (fst p), snd p)
  | EvShow => (Tab.visibilitychange Visible (fst p), snd p)
  | EvElapse ms => (Tab.elapse ms (fst p), snd p)
  | EvRevalidated r db => checkSessionQuietly r db p
  end.

Definition run (evs : list Event) (p : Page) : Page :=
  fold_left (fun p ev => step ev p) evs p.

(** Milliseconds that pass during a sequence of events. *)
Fixpoint elapsed (evs : list Event) : Z :=
  match evs with
  | [] => 0
  | EvElapse ms :: rest => Z.of_N ms + elapsed rest
  | _ :: rest => elapsed rest
  end.

(** ** Sample data *)

Module Sample.

Definition world : World :=
  {| localStorage := ∅; sessionStorage := ∅; bodyClasses := ∅;
     visibilityState := Visible; pathname := "/dashboard";
     origin := "https://app.example";
     supabaseUrl := Some "https://proj.supabase.co";
     now := 1700000000000; entropy := ["k3j9x2q1z"; "a0b1c2d3e"];
     timers := []; fetchChain := []; visibilityListeners := 0; network := [];
     cacheNames := Some ["next-data"]; idbNames := Some ["supabase-auth"; "keyval"] |}.

(** The session blob of the collaborator, holding the access token [T]. *)
Definition blob : string :=
  JSON.stringify (VObj [("access_token", VStr "T"); ("expires_at", VNum 1700003600);
                        ("user", VObj [("id", VStr "u1")])]).

Definition signedIn : World :=
  with_localStorage (<[AUTH_TOKEN_KEY := blob]> ∅) world.

(** A tab that carries both suppression flags and the DOM marker. *)
Definition flagged : World :=
  with_bodyClasses {[TAB_ACTIVE_CLASS]}
    (with_sessionStorage
       (<[RETURNING_FLAG := "true"]> (<[PREVENT_REFRESH := "1699999999000"]> ∅))
       signedIn).

(** A signed-in tab with further keys in both stores. *)
Definition dirty : World :=
  with_sessionStorage (<["auth_flag" := "1"]> ∅)
    (with_localStorage
       (<["user_prefs" := "dark"]> (<["theme" := "x"]> (localStorage signedIn)))
       signedIn).

Definition alice : User :=
  {| userId := "u1"; email := "alice@example.com"; name := "alice"; role := RoleUser;
     teamId := None; teamName := None; lastChecked := 1699999999000 |}.

Definition auth : AuthState :=
  {| user := Some alice; isLoading := false; toasts := []; reloadIn := None |}.

Definition quiet : Remote :=
  {| signOutGlobal := Returns false; signOutLocal := Returns false;
     signOutDefault := Returns false; verifySession := Returns false;
     signOutAgain := Returns false; meanwhile := fun _ w => w;
     cacheGone := fun _ => true; databaseGone := fun _ => true |}.


Definition noRows : Lookups :=
  {| adminRow := Returns false; managerRows := Returns false; memberRow := Returns None |}.

End Sample.

(** ** More of [authContext.tsx] *)

(** [supabase.auth.getUser()]: it throws, or returns an error, or returns
    [data.user] (possibly [null]). *)
Inductive UserResponse : Type :=
| UserThrows
| UserError
| UserData (authUser : option AuthUser).

(** [refreshUser], lines 246-270, once [getUser] has answered. *)
Definition refreshUser (r : UserResponse) (db : Lookups) (p : Page) : Page :=
  let p0 := on_auth (setIsLoading true) p in
  let p1 :=
    match r with
    | UserThrows => on_auth (setUser None) p0
    | UserError => on_auth (setUser None) p0
    | UserData (Some au) => updateUserData (Some au) true db p0
    | UserData None =>
        on_durable (delete USER_CACHE_KEY) (on_auth (setUser None) p0)
    end in
  on_auth (setIsLoading false) p1.

(** [checkUserRole], lines 272-290.  [user] is the value the component
    rendered with: the function closes over it, so the test after
    [await refreshUser()] reads the same value as the test before. *)
Definition checkUserRole (r : UserResponse) (db : Lookups) (p : Page) :
  UserRole * Page :=
  match user (snd p) with
  | Some u => (role u, p)
  | None =>
      let p' := refreshUser r db p in
      match user (snd p) with
      | Some u => (role u, p')
      | None => (RoleUser, p')
      end
  end.

(** The events of [supabase.auth.onAuthStateChange] the listener tells
    apart. *)
Inductive AuthEvent : Type := SIGNED_IN | SIGNED_OUT | OtherAuthEvent.

(** The listener of lines 113-129. *)
Definition onAuthStateChange (event : AuthEvent) (session : option Session)
    (db : Lookups) (p : Page) : Page :=
  match event, session with
  | SIGNED_IN, Some s => updateUserData (sessionUser s) true db p
  | SIGNED_OUT, _ =>
      let p1 := on_durable (delete USER_CACHE_KEY) (on_auth (setUser None) p) in
      if String.eqb (pathname (fst p1)) "/" then p1
      else on_world (with_pathname "/") p1
  | _, _ => p
  end.

(** *** [signOut] of [src/lib/authContext.tsx], lines 292-344 *)

Module Lib.

(** The [catch] block, lines 331-340; [toast.error] messages are collected
    beside the page.  The [router.push('/')] of this block is not awaited:
    when it fails the route stays and nothing is raised. *)
Definition signOut_failed (pushThrows : bool) (errors : list string) (p : Page) :
    Page * list string :=
  let p1 := on_durable (fun _ => ∅) (on_auth (setUser None) p) in
  (if String.eqb (pathname (fst p1)) "/" then p1
   else if pushThrows then p1 else on_world (with_pathname "/") p1,
   (errors ++ ["Failed to sign out"])%list).

(** [answer] is what [supabase.auth.signOut()] comes back with ([Returns
    true]: with an error), [collaborator] what it does to the durable store
    meanwhile, [pushThrows] whether [router.push('/')] fails. *)
Definition signOut (answer : Answer bool)
    (collaborator : gmap string string -> gmap string string)
    (pushThrows : bool) (p : Page) : Page * list string :=
  let p0 := on_auth (setIsLoading true) p in
  let p1 :=
    on_durable (removeItems [USER_CACHE_KEY; "aditi_supabase_auth"; "aditi_tab_state"])
      p0 in
  let p2 :=
    on_volatile (removeItems ["aditi_tab_id"; "returning_from_tab_switch";
                              "prevent_auto_refresh"]) p1 in
  let p3 := on_durable collaborator (on_auth (setUser None) p2) in
  let '(q, errors) :=
    match answer with
    | Throws => signOut_failed pushThrows [] p3
    | Returns failed =>
        let '(p4, errors) :=
          if failed
          then (p3, ["Failed to sign out completely. Please clear your browser data if issues persist."])
          else (on_auth (toast_success "Signed out successfully") p3, []) in
        if String.eqb (pathname (fst p4)) "/"
        then (on_auth (scheduleReload 100) p4, errors)
        else if pushThrows then signOut_failed pushThrows errors p4
        else (on_auth (scheduleReload 100) (on_world (with_pathname "/") p4), errors)
    end in
  (on_auth (setIsLoading false) q, errors).

End Lib.

(** ** Auxiliary definitions for the proofs *)

Module JSONAux.
Import JSON.

(** A text that does not go on with a digit. *)
Definition nondigit (s : string) : Prop :=
  match s with String c _ => is_digit c = false | EmptyString => True end.

(** The first character of a printed integer is a sign or a digit. *)
Definition number_start (c : ascii) : bool := Ascii.eqb c "-" || is_digit c.

(** What a serialised value can start with. *)
Definition value_start (c : ascii) : bool :=
  number_start c || Ascii.eqb c "n" || Ascii.eqb c "t" || Ascii.eqb c "f" ||
  Ascii.eqb c dquote || Ascii.eqb c "[" || Ascii.eqb c "{".

(** The white space JSON allows around its tokens. *)
Definition whitespace (c : ascii) : bool :=
  let n := N_of_ascii c in ((n =? 32) || (n =? 9) || (n =? 10) || (n =? 13))%N.

(** A text that is no JSON whatever follows: it is empty, or its first
    character is neither white space nor one a value starts with. *)
Definition cannot_be_json (s : string) : bool :=
  match s with
  | EmptyString => true
  | String c _ => negb (value_start c || whitespace c)
  end.

Fixpoint elements_str (l : list value) : string :=
  match l with
  | [] => "]"
  | x :: l' => stringify x +:+ match l' with [] => "]" | _ => "," +:+ elements_str l' end
  end.

Fixpoint members_str (l : list (string * value)) : string :=
  match l with
  | [] => "}"
  | (k, x) :: l' =>
      quote k +:+ ":" +:+ stringify x +:+
      match l' with [] => "}" | _ => "," +:+ members_str l' end
  end.

(** Number of nodes of a value: enough fuel to read it back. *)
Fixpoint size (v : value) : nat :=
  match v with
  | VArr l => S ((fix go (l : list value) : nat :=
                    match l with [] => O | x :: l' => S (size x + go l') end) l)
  | VObj l => S ((fix go (l : list (string * value)) : nat :=
                    match l with [] => O | (_, x) :: l' => S (size x + go l') end) l)
  | _ => 1%nat
  end.

Fixpoint sizes (l : list value) : nat :=
  match l with [] => O | x :: l' => S (size x + sizes l') end.

Fixpoint msizes (l : list (string * value)) : nat :=
  match l with [] => O | (_, x) :: l' => S (size x + msizes l') end.

Section value_induction.
Variable P : value -> Prop.
Hypothesis Hnull : P VNull.
Hypothesis Hbool : forall b, P (VBool b).
Hypothesis Hnum : forall n, P (VNum n).
Hypothesis Hstr : forall s, P (VStr s).
Hypothesis Harr : forall l, Forall P l -> P (VArr l).
Hypothesis Hobj : forall l, Forall (fun kv => P (snd kv)) l -> P (VObj l).

Fixpoint value_nested_ind (v : value) : P v :=
  match v with
  | VNull => Hnull
  | VBool b => Hbool b
  | VNum n => Hnum n
  | VStr s => Hstr s
  | VArr l =>
      Harr l ((fix go (l : list value) : Forall P l :=
                 match l with
                 | [] => List.Forall_nil _
                 | x :: l' => @List.Forall_cons _ P x l' (value_nested_ind x) (go l')
                 end) l)
  | VObj l =>
      Hobj l ((fix go (l : list (string * value)) : Forall (fun kv => P (snd kv)) l :=
                 match l with
                 | [] => List.Forall_nil _
                 | kv :: l' =>
                     @List.Forall_cons _ (fun kv => P (snd kv)) kv l'
                       (value_nested_ind (snd kv)) (go l')
                 end) l)
  end.
End value_induction.

Section jsvalue_induction.
Import JS.
Variable P : jsvalue -> Prop.
Hypothesis Hundefined : P JUndefined.
Hypothesis Hnull : P JNull.
Hypothesis Hbool : forall b, P (JBool b).
Hypothesis Hnum : forall n, P (JNum n).
Hypothesis Hnan : P JNaN.
Hypothesis Hinf : forall b, P (JInfinity b).
Hypothesis Hbig : forall n, P (JBigInt n).
Hypothesis Hstr : forall s, P (JStr s).
Hypothesis Harr : forall l, Forall P l -> P (JArr l).
Hypothesis Hobj : forall l, Forall (fun kv => P (snd kv)) l -> P (JObj l).

Fixpoint jsvalue_nested_ind (v : jsvalue) : P v :=
  match v with
  | JUndefined => Hundefined
  | JNull => Hnull
  | JBool b => Hbool b
  | JNum n => Hnum n
  | JNaN => Hnan
  | JInfinity b => Hinf b
  | JBigInt n => Hbig n
  | JStr s => Hstr s
  | JArr l =>
      Harr l ((fix go (l : list jsvalue) : Forall P l :=
                 match l with
                 | [] => List.Forall_nil _
                 | x :: l' => @List.Forall_cons _ P x l' (jsvalue_nested_ind x) (go l')
                 end) l)
  | JObj l =>
      Hobj l ((fix go (l : list (string * jsvalue)) : Forall (fun kv => P (snd kv)) l :=
                 match l with
                 | [] => List.Forall_nil _
                 | kv :: l' =>
                     @List.Forall_cons _ (fun kv => P (snd kv)) kv l'
                       (jsvalue_nested_ind (snd kv)) (go l')
                 end) l)
  end.
End jsvalue_induction.

End JSONAux.

Module Aux.
Import JSON JS.

(** The record [saveTabState] builds. *)
Definition builtTabState (extra : list (string * value)) (w : World) :
  list (string * value) :=
  spread (Tab.freshTabState (fst (Tab.getTabId w)) (snd (Tab.getTabId w))) extra.

(** [init] with the given plain-object headers and nothing else. *)
Definition explicitInit (h : list (string * string)) : option RequestInit :=
  Some {| headers := Some (PlainHeaders h); method := None; body := None |}.

(** The switch markers of the 2.5 s window are gone. *)
Definition markers_clear (w : World) : Prop :=
  sessionStorage w !! RETURNING_FLAG = None /\ TAB_ACTIVE_CLASS ∉ bodyClasses w.

(** A clearing callback is pending and due by [deadline]. *)
Definition armed (deadline : Z) (w : World) : Prop :=
  exists due, In (due, ClearSwitchMarkers) (timers w) /\ now w < due /\ due <= deadline.

(** Either the markers are clear, or their clearing is still to come by
    [deadline]. *)
Definition window_inv (deadline : Z) (w : World) : Prop :=
  markers_clear w \/ armed deadline w.

(** Weakest precondition of an action: [Q] is to hold where it ends
    normally, [E] where it ends by a throw. *)
Definition wp (m : Action) (Q E : Page -> Prop) (p : Page) : Prop :=
  match m p with
  | (p', Done) => Q p'
  | (p', Thrown) => E p'
  end.




(** The flag of [preventNextTabSwitchRefresh] is gone, or its removal is
    pending and due by [deadline]. *)
Definition prevent_inv (deadline : Z) (w : World) : Prop :=
  sessionStorage w !! PREVENT_REFRESH = None \/
  exists due, In (due, ClearPreventRefresh) (timers w) /\ now w < due /\ due <= deadline.

(** The random suffix the next fresh tab id would get. *)
Definition next_suffix (w : World) : string := fst (Tab.random_suffix w).

End Aux.

(** * Properties *)

(** ** [JSON.parse] reads back what [JSON.stringify] writes *)

Module JSONFacts.
Import JSON JSONAux.

Lemma app_cons c (s t : string) : String c s +:+ t = String c (s +:+ t).
Proof. reflexivity. Qed.

Lemma app_nil (t : string) : EmptyString +:+ t = t.
Proof. reflexivity. Qed.

Lemma app_assoc (a b c : string) : (a +:+ b) +:+ c = a +:+ (b +:+ c).
Proof. induction a as [|x a IH]; [reflexivity|]. now rewrite !app_cons, IH. Qed.

Lemma app_nil_r (a : string) : a +:+ EmptyString = a.
Proof. induction a as [|c a IH]; [reflexivity|]. now rewrite app_cons, IH. Qed.

Lemma length_app (a b : string) :
  String.length (a +:+ b) = (String.length a + String.length b)%nat.
Proof.
  induction a as [|c a IH]; [reflexivity|].
  rewrite app_cons. cbn [String.length]. now rewrite IH.
Qed.

Ltac norm_app := repeat (rewrite app_cons || rewrite app_nil || rewrite app_assoc).

(** *** String literals *)

Lemma parse_chars_escape_char c rest :
  parse_chars (escape_char c +:+ rest) = cons_char c (parse_chars rest).
Proof. destruct c as [[] [] [] [] [] [] [] []]; reflexivity. Qed.

Lemma parse_chars_escape s rest :
  parse_chars (escape s +:+ String dquote rest) = Some (s, rest).
Proof.
  induction s as [|c s IH]; cbn [escape].
  - reflexivity.
  - now rewrite app_assoc, parse_chars_escape_char, IH.
Qed.

(** *** Integers *)

Lemma span_digits_uint d rest :
  nondigit rest ->
  span_digits (NilEmpty.string_of_uint d +:+ rest) = (NilEmpty.string_of_uint d, rest).
Proof.
  intros Hr. induction d; cbn [NilEmpty.string_of_uint];
    rewrite ?app_cons, ?app_nil;
    try (cbn [span_digits]; change (is_digit _) with true; cbv iota; now rewrite IHd).
  destruct rest as [|c r]; [reflexivity|]. unfold nondigit in Hr.
  cbn [span_digits]. now rewrite Hr.
Qed.

Lemma string_of_uint_nonnil d :
  d <> Decimal.Nil -> NilZero.string_of_uint d = NilEmpty.string_of_uint d.
Proof. now destruct d. Qed.

Lemma uint_head_digit d :
  d <> Decimal.Nil ->
  exists c s, NilEmpty.string_of_uint d = String c s /\ is_digit c = true.
Proof. destruct d; [congruence|..]; intros _; eexists _, _; split; reflexivity. Qed.

Lemma lex_number_digit c s :
  is_digit c = true -> lex_number (String c s) = span_digits (String c s).
Proof.
  intros Hc. unfold lex_number.
  destruct (Ascii.eqb_spec c "-") as [->|_]; [discriminate|reflexivity].
Qed.

Lemma lex_number_print n rest :
  nondigit rest -> lex_number (print_Z n +:+ rest) = (print_Z n, rest).
Proof.
  intros Hr. unfold print_Z.
  assert (Hpos : forall d, d <> Decimal.Nil ->
      lex_number (NilEmpty.string_of_uint d +:+ rest) = (NilEmpty.string_of_uint d, rest)).
  { intros d Hd. destruct (uint_head_digit d Hd) as (c & s & E & Hc).
    rewrite <- (span_digits_uint d rest Hr). rewrite E, app_cons.
    now apply lex_number_digit. }
  destruct n as [|p|p]; cbn [Z.to_int NilZero.string_of_int].
  - apply (Hpos (Decimal.D0 Decimal.Nil)). discriminate.
  - rewrite string_of_uint_nonnil by apply DecimalPos.Unsigned.to_uint_nonnil.
    apply Hpos, DecimalPos.Unsigned.to_uint_nonnil.
  - rewrite string_of_uint_nonnil by apply DecimalPos.Unsigned.to_uint_nonnil.
    rewrite app_cons. cbn [lex_number]. change (Ascii.eqb "-" "-") with true. cbv iota.
    now rewrite span_digits_uint.
Qed.

Lemma int_of_string_print n :
  NilZero.int_of_string (print_Z n) = Some (Z.to_int n).
Proof.
  unfold print_Z. apply NilZero.isi; destruct n; try discriminate;
  intros [= E]; now apply DecimalPos.Unsigned.to_uint_nonnil in E.
Qed.

Lemma parse_number_print n rest :
  nondigit rest -> parse_number (print_Z n +:+ rest) = Some (n, rest).
Proof.
  intros Hr. unfold parse_number. rewrite (lex_number_print n rest Hr).
  rewrite int_of_string_print, DecimalZ.of_to, String.eqb_refl. reflexivity.
Qed.

Lemma print_Z_head n :
  exists c s, print_Z n = String c s /\ number_start c = true.
Proof.
  unfold print_Z. destruct n as [|p|p]; cbn [Z.to_int NilZero.string_of_int].
  - eexists _, _; split; reflexivity.
  - rewrite string_of_uint_nonnil by apply DecimalPos.Unsigned.to_uint_nonnil.
    destruct (uint_head_digit _ (DecimalPos.Unsigned.to_uint_nonnil p))
      as (c & s & -> & Hc).
    exists c, s. split; [reflexivity|]. unfold number_start. rewrite Hc. apply orb_true_r.
  - eexists _, _; split; reflexivity.
Qed.

Lemma parse_value_number fuel c s :
  number_start c = true ->
  parse_value (S fuel) (String c s) =
  match parse_number (String c s) with
  | Some (n, rest) => Some (VNum n, rest)
  | None => None
  end.
Proof.
  intros Hc. cbn [parse_value].
  destruct c as [[] [] [] [] [] [] [] []]; try discriminate Hc; reflexivity.
Qed.

(** *** Values *)

Lemma stringify_arr l : stringify (VArr l) = "[" +:+ elements_str l.
Proof.
  reflexivity.
Qed.

Lemma stringify_obj l : stringify (VObj l) = "{" +:+ members_str l.
Proof.
  reflexivity.
Qed.

Lemma size_arr l : size (VArr l) = S (sizes l).
Proof. reflexivity. Qed.
Lemma size_obj l : size (VObj l) = S (msizes l).
Proof. reflexivity. Qed.

Lemma expect_ok lit v rest : expect lit v (lit +:+ rest) = Some (v, rest).
Proof.
  unfold expect.
  assert (Hp : String.prefix lit (lit +:+ rest) = true).
  { induction lit as [|c lit IH]; [now destruct rest|].
    rewrite app_cons. cbn [String.prefix]. destruct (ascii_dec c c); [exact IH|congruence]. }
  rewrite Hp. do 2 f_equal.
  induction lit as [|c lit IH].
  - rewrite app_nil. cbn [String.length]. rewrite Nat.sub_0_r.
    clear. induction rest as [|c r IH]; [reflexivity|]. cbn. now rewrite IH.
  - rewrite app_cons. cbn [String.length String.substring]. apply IH.
    clear -Hp. rewrite app_cons in Hp. cbn [String.prefix] in Hp.
    destruct (ascii_dec c c); [exact Hp|congruence].
Qed.

Lemma stringify_head v :
  exists c s, stringify v = String c s /\ value_start c = true.
Proof.
  destruct v as [|[]|n|s|l|l].
  - eexists _, _; split; reflexivity.
  - eexists _, _; split; reflexivity.
  - eexists _, _; split; reflexivity.
  - destruct (print_Z_head n) as (c & s & E & Hc). exists c, s. split; [exact E|].
    unfold value_start. now rewrite Hc.
  - eexists _, _; split; reflexivity.
  - rewrite stringify_arr. eexists _, _; split; reflexivity.
  - rewrite stringify_obj. eexists _, _; split; reflexivity.
Qed.

Lemma parse_value_arr fuel s :
  parse_value (S fuel) (String "[" s) =
  match s with
  | String c' r =>
      if Ascii.eqb c' "]" then Some (VArr [], r)
      else match parse_elements fuel s with
           | Some (l, rest) => Some (VArr l, rest)
           | None => None
           end
  | EmptyString => None
  end.
Proof. reflexivity. Qed.

Lemma parse_value_obj fuel s :
  parse_value (S fuel) (String "{" s) =
  match s with
  | String c' r =>
      if Ascii.eqb c' "}" then Some (VObj [], r)
      else match parse_members fuel s with
           | Some (l, rest) => Some (VObj l, rest)
           | None => None
           end
  | EmptyString => None
  end.
Proof. reflexivity. Qed.

Lemma parse_stringify_fuel fuel :
  forall v rest, (size v < fuel)%nat -> nondigit rest ->
  parse_value fuel (stringify v +:+ rest) = Some (v, rest).
Proof.
  induction fuel as [fuel IH] using (well_founded_induction lt_wf).
  intros v rest Hsz Hr.
  destruct fuel as [|f]; [lia|].
  assert (Hel : forall l g rest', (g <= f)%nat -> l <> [] -> (sizes l < g)%nat ->
            parse_elements g (elements_str l +:+ rest') = Some (l, rest')).
  { induction l as [|x l IHl]; intros g rest' Hg Hne Hs; [congruence|].
    destruct g as [|g']; [lia|]. cbn [sizes] in Hs.
    cbn [parse_elements elements_str]. rewrite app_assoc.
    rewrite IH by (try lia; now destruct l).
    destruct l as [|y l].
    - reflexivity.
    - rewrite app_assoc. rewrite app_cons, app_nil.
      change (Ascii.eqb "," ",") with true. cbv iota.
      rewrite IHl; [reflexivity|lia|discriminate|cbn [sizes] in *; lia]. }
  assert (Hmem : forall l g rest', (g <= f)%nat -> l <> [] -> (msizes l < g)%nat ->
            parse_members g (members_str l +:+ rest') = Some (l, rest')).
  { induction l as [|[k x] l IHl]; intros g rest' Hg Hne Hs; [congruence|].
    destruct g as [|g']; [lia|]. cbn [msizes] in Hs.
    cbn [members_str]. unfold quote. norm_app. cbn [parse_members].
    change (Ascii.eqb dquote dquote) with true. cbv iota.
    rewrite parse_chars_escape.
    change (Ascii.eqb ":" ":") with true. cbv iota.
    rewrite IH by (try lia; now destruct l).
    destruct l as [|y l].
    - reflexivity.
    - norm_app.
      change (Ascii.eqb "," ",") with true. cbv iota.
      rewrite IHl; [reflexivity|lia|discriminate|cbn [msizes] in *; lia]. }
  destruct v as [|[]|n|s|l|l].
  - cbn [stringify]. rewrite app_cons. cbn [parse_value].
    change (Ascii.eqb "n" "n") with true. cbv iota. apply (expect_ok "ull").
  - cbn [stringify]. rewrite app_cons. cbn [parse_value].
    apply (expect_ok "rue").
  - cbn [stringify]. rewrite app_cons. cbn [parse_value].
    apply (expect_ok "alse").
  - cbn [stringify]. destruct (print_Z_head n) as (c & s & E & Hc).
    pose proof (parse_number_print n rest Hr) as Hp. rewrite E in *.
    rewrite app_cons in *. rewrite parse_value_number by exact Hc. now rewrite Hp.
  - cbn [stringify]. unfold quote. norm_app. cbn [parse_value].
    change (Ascii.eqb dquote "n") with false.
    change (Ascii.eqb dquote "t") with false.
    change (Ascii.eqb dquote "f") with false.
    change (Ascii.eqb dquote dquote) with true. cbv iota.
    rewrite parse_chars_escape. reflexivity.
  - rewrite stringify_arr, size_arr in *. norm_app. rewrite parse_value_arr.
    destruct l as [|x l]; [reflexivity|].
    pose proof (Hel (x :: l) f rest (le_n _) ltac:(discriminate) ltac:(lia)) as Hp.
    cbn [elements_str] in *. rewrite app_assoc in *.
    destruct (stringify_head x) as (c & s & E & Hc). rewrite E in *.
    rewrite app_cons in *.
    destruct (Ascii.eqb_spec c "]") as [->|_]; [discriminate Hc|].
    now rewrite Hp.
  - rewrite stringify_obj, size_obj in *. norm_app. rewrite parse_value_obj.
    destruct l as [|[k x] l]; [reflexivity|].
    pose proof (Hmem ((k, x) :: l) f rest (le_n _) ltac:(discriminate) ltac:(lia)) as Hp.
    cbn [members_str] in *. unfold quote in *. rewrite !app_cons in *.
    change (Ascii.eqb dquote "}") with false. cbv iota.
    now rewrite Hp.
Qed.

Lemma size_le_length v : (size v <= String.length (stringify v))%nat.
Proof.
  induction v as [|b|n|s|l IH|l IH] using value_nested_ind.
  - cbn. lia.
  - destruct b; cbn; lia.
  - cbn [size stringify]. destruct (print_Z_head n) as (c & s & -> & _). cbn. lia.
  - cbn. lia.
  - rewrite stringify_arr, size_arr, app_cons, app_nil. cbn [String.length].
    apply le_n_S.
    induction IH as [|x l Hx _ IHl]; [cbn; lia|].
    cbn [sizes elements_str]. rewrite length_app.
    destruct l as [|y l]; [cbn in *; lia|].
    rewrite app_cons, app_nil. cbn [String.length]. lia.
  - rewrite stringify_obj, size_obj, app_cons, app_nil. cbn [String.length].
    apply le_n_S.
    induction IH as [|[k x] l Hx _ IHl]; [cbn; lia|].
    cbn [msizes members_str]. rewrite !length_app. cbn [snd] in Hx.
    destruct l as [|y l]; [cbn in *; lia|].
    rewrite app_cons, app_nil. cbn [String.length]. lia.
Qed.

Theorem parse_stringify v : parse (stringify v) = Some v.
Proof.
  unfold parse.
  rewrite <- (app_nil_r (stringify v)) at 2.
  rewrite parse_stringify_fuel; [reflexivity| |exact I].
  pose proof (size_le_length v). lia.
Qed.

Lemma stringify_nonempty v : Str.nonempty (stringify v) = true.
Proof. destruct (stringify_head v) as (c & s & -> & _). reflexivity. Qed.

End JSONFacts.

(** ** Objects *)

Module JSFacts.
Import JSON JS.

Section entries.
Context {A : Type}.
Implicit Types (o s t : list (string * A)) (k : string) (v : A).

Lemma obj_has_get k o : obj_has k o = true <-> is_Some (obj_get k o).
Proof.
  induction o as [|[k' w] o IH]; cbn [obj_has existsb obj_get fst].
  - split; [discriminate|]. intros [? [=]].
  - fold (obj_has k o). rewrite orb_true_iff, IH.
    destruct (obj_get k o) as [x|]; [split; eauto|].
    destruct (String.eqb k' k); split; eauto;
      try (intros [[=]|[? [=]]]); try (intros [? [=]]).
Qed.

Lemma obj_has_false k o : obj_has k o = false <-> obj_get k o = None.
Proof.
  pose proof (obj_has_get k o) as H.
  destruct (obj_has k o), (obj_get k o) as [x|]; split; try congruence;
    intros _; exfalso.
  - destruct (proj1 H eq_refl) as [? [=]].
  - assert (false = true) by (apply H; eauto). congruence.
Qed.

Lemma obj_get_app k o k' v :
  obj_get k (o ++ [(k', v)]) = if String.eqb k' k then Some v else obj_get k o.
Proof.
  induction o as [|[k1 w] o IH]; cbn [app obj_get].
  - reflexivity.
  - rewrite IH. destruct (String.eqb k' k); [reflexivity|]. reflexivity.
Qed.

Lemma obj_get_map_set k v o k' :
  obj_get k' (map (fun kv => if String.eqb (fst kv) k then (fst kv, v) else kv) o) =
  if String.eqb k k' then option_map (fun _ => v) (obj_get k' o) else obj_get k' o.
Proof.
  induction o as [|[k1 w] o IH]; cbn [map obj_get fst].
  - now destruct (String.eqb k k').
  - destruct (String.eqb_spec k1 k) as [->|Hne]; cbn [obj_get]; rewrite IH;
      destruct (String.eqb_spec k k') as [->|Hne'];
      destruct (obj_get k' o); cbn [option_map];
      rewrite ?String.eqb_refl; try reflexivity;
      repeat match goal with
             | |- context [String.eqb ?a ?b] =>
                 destruct (String.eqb_spec a b); try congruence
             end; reflexivity.
Qed.

Lemma obj_get_set_eq k v o : obj_get k (obj_set k v o) = Some v.
Proof.
  unfold obj_set. destruct (obj_has k o) eqn:E.
  - rewrite obj_get_map_set, String.eqb_refl.
    apply obj_has_get in E as [x ->]. reflexivity.
  - now rewrite obj_get_app, String.eqb_refl.
Qed.

Lemma obj_get_set_ne k v o k' : k <> k' -> obj_get k' (obj_set k v o) = obj_get k' o.
Proof.
  intros Hne. unfold obj_set. destruct (obj_has k o).
  - rewrite obj_get_map_set. now destruct (String.eqb_spec k k').
  - rewrite obj_get_app. now destruct (String.eqb_spec k k').
Qed.

(** [{ ...t, ...s }] reads a property from [s] when [s] has it, else from [t]. *)
Lemma obj_get_spread k s : forall t,
  obj_get k (spread t s) =
  match obj_get k s with Some v => Some v | None => obj_get k t end.
Proof.
  unfold spread. induction s as [|[k1 v1] s IH]; intros t; cbn [fold_left obj_get fst snd].
  - reflexivity.
  - rewrite IH. destruct (obj_get k s); [reflexivity|].
    destruct (String.eqb_spec k1 k) as [->|Hne].
    + apply obj_get_set_eq.
    + now apply obj_get_set_ne.
Qed.

Lemma obj_has_spread k t s : obj_has k (spread t s) = obj_has k t || obj_has k s.
Proof.
  destruct (obj_has k (spread t s)) eqn:E.
  - apply obj_has_get in E. rewrite obj_get_spread in E. symmetry.
    apply orb_true_iff. destruct (obj_get k s) eqn:Es.
    + right. apply obj_has_get. rewrite Es. eauto.
    + left. now apply obj_has_get.
  - apply obj_has_false in E. rewrite obj_get_spread in E. symmetry.
    apply orb_false_iff. destruct (obj_get k s) eqn:Es; [discriminate|].
    split; now apply obj_has_false.
Qed.
End entries.

End JSFacts.

(** ** JSON data among the JavaScript values *)

Module DataFacts.
Import JSON JS Aux JSONAux JSONFacts JSFacts.

Lemma to_json_of_value v : to_json (of_value v) = Written v.
Proof.
  induction v as [|b|n|s|l IH|l IH] using value_nested_ind; try reflexivity.
  - cbn [of_value to_json].
    assert (H : (fix elements (l : list jsvalue) : option (list value) :=
               match l with
               | [] => Some []
               | x :: l' =>
                   match to_json x, elements l' with
                   | Unserialisable, _ => None
                   | _, None => None
                   | Omitted, Some r => Some (VNull :: r)
                   | Written j, Some r => Some (j :: r)
                   end
               end) (map of_value l) = Some l).
    { induction IH as [|x l Hx _ IHl]; [reflexivity|].
      cbn [map]. rewrite Hx, IHl. reflexivity. }
    now rewrite H.
  - cbn [of_value to_json].
    assert (H : (fix members (l : list (string * jsvalue)) : option (list (string * value)) :=
               match l with
               | [] => Some []
               | (k, x) :: l' =>
                   match to_json x, members l' with
                   | Unserialisable, _ => None
                   | _, None => None
                   | Omitted, Some r => Some r
                   | Written j, Some r => Some ((k, j) :: r)
                   end
               end) (map (fun '(k, x) => (k, of_value x)) l) = Some l).
    { induction IH as [|[k x] l Hx _ IHl]; [reflexivity|].
      cbn [map snd] in *. rewrite Hx, IHl. reflexivity. }
    now rewrite H.
Qed.

Lemma to_json_data o : to_json (JObj (data o)) = Written (VObj o).
Proof. exact (to_json_of_value (VObj o)). Qed.

Lemma obj_has_data k o : obj_has k (data o) = obj_has k o.
Proof.
  unfold obj_has, data. induction o as [|[k' x] o IH]; [reflexivity|].
  cbn [map existsb fst]. now rewrite IH.
Qed.

Lemma obj_get_data k o : obj_get k (data o) = option_map of_value (obj_get k o).
Proof.
  unfold data. induction o as [|[k' x] o IH]; [reflexivity|].
  cbn [map obj_get]. rewrite IH. destruct (obj_get k o); [reflexivity|].
  cbn [option_map]. now destruct (String.eqb k' k).
Qed.

Lemma obj_set_data k v o : obj_set k (of_value v) (data o) = data (obj_set k v o).
Proof.
  unfold obj_set. rewrite obj_has_data. destruct (obj_has k o).
  - unfold data. rewrite !map_map. apply map_ext. intros [k' x]. cbn [fst].
    now destruct (String.eqb k' k).
  - unfold data. now rewrite map_app.
Qed.

Lemma spread_data a b : spread (data a) (data b) = data (spread a b).
Proof.
  unfold spread. revert a. induction b as [|[k x] b IH]; intros a; [reflexivity|].
  cbn [data map fold_left fst snd]. rewrite obj_set_data. apply IH.
Qed.

(** A value JSON has a text for is the image of a JSON value. *)
Lemma is_data_of_value v : is_data v = true -> exists d, v = of_value d.
Proof.
  induction v as [| |b|n| |b|n|s|l IH|l IH] using jsvalue_nested_ind;
    cbn [is_data]; try discriminate; intros H.
  - now exists VNull.
  - now exists (VBool b).
  - now exists (VNum n).
  - now exists (VStr s).
  - assert (exists ds, l = map of_value ds) as [ds ->].
    { induction IH as [|x l Hx _ IHl]; [now exists []|].
      cbn [forallb] in H. apply andb_true_iff in H as [H1 H2].
      destruct (Hx H1) as [d ->]. destruct (IHl H2) as [ds ->].
      now exists (d :: ds). }
    now exists (VArr ds).
  - assert (exists ds, l = data ds) as [ds ->].
    { induction IH as [|[k x] l Hx _ IHl]; [now exists []|].
      cbn [forallb snd] in *. apply andb_true_iff in H as [H1 H2].
      destruct (Hx H1) as [d ->]. destruct (IHl H2) as [ds ->].
      now exists ((k, d) :: ds). }
    now exists (VObj ds).
Qed.

Lemma all_data_entries (o : list (string * jsvalue)) :
  forallb (fun kv => is_data (snd kv)) o = true -> exists e, o = data e.
Proof.
  induction o as [|[k x] o IH]; [now exists []|].
  cbn [forallb snd]. intros [H1 H2]%andb_true_iff.
  destruct (is_data_of_value x H1) as [d ->]. destruct (IH H2) as [e ->].
  now exists ((k, d) :: e).
Qed.

Lemma of_value_inj a b : of_value a = of_value b -> a = b.
Proof.
  intros H. pose proof (to_json_of_value a) as Ha. rewrite H, to_json_of_value in Ha.
  congruence.
Qed.

End DataFacts.

(** ** Tab identity and the tab-state record *)

Module TabFacts.
Import JSON JS Aux JSONFacts JSFacts DataFacts.

(** What [getTabId] returns is stored, non-empty, and nothing but the
    volatile store and the random supply changes. *)
Lemma getTabId_spec w :
  let r := Tab.getTabId w in
  sessionStorage (snd r) !! TAB_ID_KEY = Some (fst r) /\
  Str.nonempty (fst r) = true /\
  localStorage (snd r) = localStorage w /\
  now (snd r) = now w /\ pathname (snd r) = pathname w /\
  bodyClasses (snd r) = bodyClasses w /\ timers (snd r) = timers w /\
  visibilityState (snd r) = visibilityState w /\
  visibilityListeners (snd r) = visibilityListeners w /\
  (forall k, k <> TAB_ID_KEY -> sessionStorage (snd r) !! k = sessionStorage w !! k).
Proof.
  unfold Tab.getTabId, Tab.random_suffix.
  destruct (sessionStorage w !! TAB_ID_KEY) as [tabId|] eqn:E;
    [destruct (Str.nonempty tabId) eqn:Hne|];
    try (destruct (entropy w) as [|r rest]);
    cbn; rewrite ?lookup_insert_eq; repeat split; auto;
    intros k Hk; now rewrite lookup_insert_ne.
Qed.

Lemma getAuthToken_local w w' :
  localStorage w' = localStorage w -> Tab.getAuthToken w' = Tab.getAuthToken w.
Proof. unfold Tab.getAuthToken. now intros ->. Qed.

Lemma saveTabState_stored extra w :
  localStorage (Tab.saveTabState extra w) !! TAB_STATE_KEY =
  Some (JSON.stringify (VObj (builtTabState extra w))).
Proof.
  unfold Tab.saveTabState, builtTabState.
  destruct (Tab.getTabId w) as [tabId w1]. cbn. apply lookup_insert_eq.
Qed.

Lemma restore_after_save extra w :
  Tab.restoreTabState (Tab.saveTabState extra w) = VObj (builtTabState extra w).
Proof.
  unfold Tab.restoreTabState. rewrite saveTabState_stored.
  now rewrite stringify_nonempty, parse_stringify.
Qed.

Lemma builtTabState_get extra w k :
  obj_get k (builtTabState extra w) =
  match obj_get k extra with
  | Some v => Some v
  | None => obj_get k (Tab.freshTabState (fst (Tab.getTabId w)) (snd (Tab.getTabId w)))
  end.
Proof. apply obj_get_spread. Qed.

Lemma getTabId_browser w :
  getTabId (Browser w) = (fst (Tab.getTabId w), Browser (snd (Tab.getTabId w))).
Proof. cbn [getTabId]. now destruct (Tab.getTabId w). Qed.

(** C8.  Two calls of [getTabId] in one tab lifetime return the same
    string, whatever time has passed and whatever the random source would
    give the second time; without [window] the result is the empty string. *)
Theorem getTabId_same_in_tab_lifetime :
  (forall w t ent,
     fst (Tab.getTabId (with_now t (with_entropy ent (snd (Tab.getTabId w))))) =
     fst (Tab.getTabId w)) /\
  (forall e, fst (getTabId (snd (getTabId e))) = fst (getTabId e)) /\
  getTabId Server = (EmptyString, Server).
Proof.
  assert (H : forall w w', sessionStorage w' = sessionStorage (snd (Tab.getTabId w)) ->
                           fst (Tab.getTabId w') = fst (Tab.getTabId w)).
  { intros w w' Hs. destruct (getTabId_spec w) as (Hst & Hne & _).
    cbv zeta in *. unfold Tab.getTabId at 1. rewrite Hs, Hst, Hne. reflexivity. }
  split; [|split].
  - intros w t ent. now apply H.
  - intros [|w]; [reflexivity|].
    rewrite (getTabId_browser w). cbn [fst snd]. rewrite (getTabId_browser _).
    cbn [fst]. now apply H.
  - reflexivity.
Qed.

(** On JSON data [restoreTabState] after [saveTabState(extra)] gives a
    record (not null) that holds every pair of [extra] and the fields
    [tabId], [lastActive] and [route]; where [extra] does not name them
    these are the tab's id, the current time and the current route. *)
Lemma roundtrip_on_data (w : World) (extra : list (string * value)) :
  exists record,
    restoreTabState (saveTabState extra (Browser w)) = VObj record /\
    (forall k v, obj_get k extra = Some v -> obj_get k record = Some v) /\
    obj_has "tabId" record = true /\
    obj_has "lastActive" record = true /\
    obj_has "route" record = true /\
    (obj_has "tabId" extra = false ->
       obj_get "tabId" record = Some (VStr (fst (getTabId (Browser w))))) /\
    (obj_has "lastActive" extra = false ->
       obj_get "lastActive" record = Some (VNum (now w))) /\
    (obj_has "route" extra = false ->
       obj_get "route" record = Some (VStr (pathname w))).
Proof.
  exists (builtTabState extra w). cbn [saveTabState restoreTabState getTabId].
  destruct (getTabId_spec w) as (_ & _ & _ & Hnow & Hpath & _). cbv zeta in *.
  split; [apply restore_after_save|].
  split; [intros k v Hk; now rewrite builtTabState_get, Hk|].
  repeat split;
    try (unfold builtTabState; rewrite obj_has_spread; reflexivity);
    intros Hno%obj_has_false; rewrite builtTabState_get, Hno;
    destruct (Tab.getTabId w) as [tabId w1]; cbn in *; congruence.
Qed.

(** On JSON data the general function is [Tab.saveTabState]. *)
Lemma saveTabState_any_data extra w :
  Tab.saveTabState_any (data extra) w = Tab.saveTabState extra w.
Proof.
  unfold Tab.saveTabState_any, Tab.saveTabState.
  destruct (Tab.getTabId w) as [tabId w1].
  now rewrite spread_data, to_json_data.
Qed.

(** C6, as the code has it.  When every value of [additionalData] is one
    JSON has a text for (null, a boolean, a safe integer, a string, an array
    or object of such), [restoreTabState] after [saveTabState] gives a
    record (not null) that holds every pair of [additionalData] and the
    fields [tabId], [lastActive] and [route]; where [additionalData] does
    not name them these are the tab's id, the current time and the current
    route. *)
Theorem saveTabState_restoreTabState_roundtrip
    (w : World) (additionalData : list (string * jsvalue)) :
  forallb (fun kv => is_data (snd kv)) additionalData = true ->
  exists record,
    restoreTabState (saveTabState_any additionalData (Browser w)) = VObj record /\
    (forall k v, obj_get k additionalData = Some v ->
       exists d, v = of_value d /\ obj_get k record = Some d) /\
    obj_has "tabId" record = true /\
    obj_has "lastActive" record = true /\
    obj_has "route" record = true /\
    (obj_has "tabId" additionalData = false ->
       obj_get "tabId" record = Some (VStr (fst (getTabId (Browser w))))) /\
    (obj_has "lastActive" additionalData = false ->
       obj_get "lastActive" record = Some (VNum (now w))) /\
    (obj_has "route" additionalData = false ->
       obj_get "route" record = Some (VStr (pathname w))).
Proof.
  intros [extra ->]%all_data_entries.
  cbn [saveTabState_any]. rewrite saveTabState_any_data, !obj_has_data.
  destruct (roundtrip_on_data w extra) as (record & Hr & Hextra & Hrest).
  exists record. split; [exact Hr|]. split; [|exact Hrest].
  intros k v. rewrite obj_get_data.
  destruct (obj_get k extra) as [d|] eqn:E; [|discriminate].
  intros [= <-]. exists d. split; [reflexivity|]. now apply Hextra.
Qed.

Lemma saveTabState_restoreTabState_roundtrip_witness :
  exists record,
    restoreTabState (saveTabState_any [("x", JNum 1)] (Browser Sample.signedIn))
      = VObj record /\
    (forall k v, obj_get k [("x", JNum 1)] = Some v ->
       exists d, v = of_value d /\ obj_get k record = Some d) /\
    obj_has "tabId" record = true /\
    obj_has "lastActive" record = true /\
    obj_has "route" record = true /\
    (obj_has "tabId" [("x", JNum 1)] = false ->
       obj_get "tabId" record = Some (VStr (fst (getTabId (Browser Sample.signedIn))))) /\
    (obj_has "lastActive" [("x", JNum 1)] = false ->
       obj_get "lastActive" record = Some (VNum (now Sample.signedIn))) /\
    (obj_has "route" [("x", JNum 1)] = false ->
       obj_get "route" record = Some (VStr (pathname Sample.signedIn))).
Proof.
  apply (saveTabState_restoreTabState_roundtrip Sample.signedIn [("x", JNum 1)]).
  reflexivity.
Defined.

(** C6 as stated fails for an extra map that holds more than JSON data.
    A property that is [undefined] displaces the standard field of its name
    and is not written, so the record has no [tabId]; [NaN] is read back as
    null; a [BigInt] makes [JSON.stringify] throw, so nothing is stored and
    [restoreTabState] gives null. *)
Lemma roundtrip_fails_beyond_json_data :
  prop "tabId"
    (restoreTabState (saveTabState_any [("tabId", JUndefined)] (Browser Sample.signedIn)))
    = None /\
  prop "x"
    (restoreTabState (saveTabState_any [("x", JNaN)] (Browser Sample.signedIn)))
    = Some VNull /\
  restoreTabState (saveTabState_any [("x", JBigInt 1)] (Browser Sample.signedIn))
    = VNull.
Proof. repeat split; vm_compute; reflexivity. Qed.



Lemma builtTabState_token extra w :
  obj_has "authToken" extra = false ->
  obj_get "authToken" (builtTabState extra w) = Some (Tab.getAuthToken w).
Proof.
  intros Hno%obj_has_false. rewrite builtTabState_get, Hno.
  destruct (getTabId_spec w) as (_ & _ & Hls & _). cbv zeta in Hls.
  destruct (Tab.getTabId w) as [tabId w1]. cbn in *.
  f_equal. now apply getAuthToken_local.
Qed.

(** C9, as the code has it.  When [extra] has no [authToken] of its own,
    the stored record holds under [authToken] the very value
    [getAuthToken()] returns (the token string, or null). *)
Theorem saveTabState_stores_token (w : World) (extra : list (string * value)) :
  obj_has "authToken" extra = false ->
  exists record,
    localStorage (Tab.saveTabState extra w) !! TAB_STATE_KEY =
      Some (JSON.stringify (VObj record)) /\
    obj_get "authToken" record = Some (getAuthToken (Browser w)) /\
    prop "authToken" (restoreTabState (saveTabState extra (Browser w))) =
      Some (getAuthToken (Browser w)).
Proof.
  intros Hno. exists (builtTabState extra w).
  split; [apply saveTabState_stored|].
  pose proof (builtTabState_token extra w Hno) as Hget.
  split; [exact Hget|].
  cbn [saveTabState restoreTabState getAuthToken]. now rewrite restore_after_save.
Qed.

Lemma saveTabState_stores_token_witness :
  exists record,
    localStorage (Tab.saveTabState [("lastVisible", VNum 1700000000000)] Sample.signedIn)
      !! TAB_STATE_KEY = Some (JSON.stringify (VObj record)) /\
    obj_get "authToken" record = Some (getAuthToken (Browser Sample.signedIn)) /\
    prop "authToken"
      (restoreTabState
         (saveTabState [("lastVisible", VNum 1700000000000)] (Browser Sample.signedIn)))
    = Some (getAuthToken (Browser Sample.signedIn)).
Proof.
  apply (saveTabState_stores_token Sample.signedIn [("lastVisible", VNum 1700000000000)]).
  reflexivity.
Defined.

(** C9 as stated fails: with [authToken] among the keys of [extra], what is
    stored under [authToken] is the caller's value, not the token. *)
Lemma saveTabState_token_overridden :
  getAuthToken (Browser Sample.signedIn) = VStr "T" /\
  prop "authToken"
    (restoreTabState (saveTabState [("authToken", VStr "x")] (Browser Sample.signedIn)))
  = Some (VStr "x").
Proof. split; vm_compute; reflexivity. Qed.

(** The visibility listener passes only [lastVisible] or [lastHidden], so
    each transition copies the token into the record. *)
Lemma onVisibilityChange_stores_token w :
  prop "authToken" (Tab.restoreTabState (Tab.onVisibilityChange w)) =
  Some (Tab.getAuthToken w).
Proof.
  unfold Tab.onVisibilityChange, Tab.setTimeout.
  destruct (visibilityState w).
  - change (Tab.restoreTabState (with_timers ?t ?x)) with (Tab.restoreTabState x).
    rewrite restore_after_save. cbn [prop]. now apply builtTabState_token.
  - rewrite restore_after_save. cbn [prop]. now apply builtTabState_token.
Qed.

End TabFacts.

(** ** Quiet revalidation *)

Module AuthFacts.
Import JSON JS.

(** Revalidation never touches the volatile store, the DOM markers, the
    timers or the clock. *)
Lemma checkSessionQuietly_frame r db w a :
  let w' := fst (checkSessionQuietly r db (w, a)) in
  sessionStorage w' = sessionStorage w /\ bodyClasses w' = bodyClasses w /\
  timers w' = timers w /\ now w' = now w /\
  visibilityListeners w' = visibilityListeners w.
Proof.
  unfold checkSessionQuietly, updateUserData.
  destruct r as [| |[[[au|]]|]]; cbn; auto.
  - destruct (truthy_text (authEmail au)); cbn; auto.
  - destruct (user a); cbn; auto.
    destruct (negb (item_truthy (localStorage w !! USER_CACHE_KEY))); cbn; auto.
    destruct (visibilityState w); cbn; auto.
Qed.

(** C3 as stated fails: when [getSession] answers with an error (rather
    than throwing), the identity is cleared and the cached record removed. *)
Lemma session_error_clears_identity :
  let w := with_localStorage
             (<[USER_CACHE_KEY := JSON.stringify (user_json Sample.alice)]> ∅)
             Sample.world in
  let p' := checkSessionQuietly SessionError Sample.noRows (w, Sample.auth) in
  user Sample.auth = Some Sample.alice /\
  is_Some (localStorage w !! USER_CACHE_KEY) /\
  user (snd p') = None /\
  localStorage (fst p') !! USER_CACHE_KEY = None.
Proof. cbv zeta. repeat split; try reflexivity. eexists. reflexivity. Qed.

(** C3, as the code has it.  A [getSession] that throws changes nothing at
    all; one that returns an error clears the in-memory identity and
    removes the cached record, and leaves every other durable key alone. *)
Theorem revalidation_error_policy (db : Lookups) (w : World) (a : AuthState) :
  checkSessionQuietly SessionThrows db (w, a) = (w, a) /\
  (let p' := checkSessionQuietly SessionError db (w, a) in
   user (snd p') = None /\
   localStorage (fst p') !! USER_CACHE_KEY = None /\
   (forall k, k <> USER_CACHE_KEY -> localStorage (fst p') !! k = localStorage w !! k) /\
   isLoading (snd p') = isLoading a).
Proof.
  split; [reflexivity|]. cbn. repeat split.
  - apply lookup_delete_eq.
  - intros k Hk. now apply lookup_delete_ne.
Qed.

(** C4.  Revalidation reports no session while an identity is in memory:
    the identity and the cached record change only if there is no cached
    record; with a cached record and the tab not visible, nothing changes. *)
Theorem no_session_policy (db : Lookups) (w : World) (a : AuthState) (u : User) :
  user a = Some u ->
  let p' := checkSessionQuietly (SessionData None) db (w, a) in
  (user (snd p') <> Some u \/
   localStorage (fst p') !! USER_CACHE_KEY <> localStorage w !! USER_CACHE_KEY ->
   item_truthy (localStorage w !! USER_CACHE_KEY) = false) /\
  (item_truthy (localStorage w !! USER_CACHE_KEY) = false ->
   user (snd p') = None /\ localStorage (fst p') !! USER_CACHE_KEY = None) /\
  (item_truthy (localStorage w !! USER_CACHE_KEY) = true ->
   visibilityState w = Hidden -> p' = (w, a)).
Proof.
  intros Hu. cbv zeta. unfold checkSessionQuietly. rewrite Hu.
  destruct (item_truthy (localStorage w !! USER_CACHE_KEY)) eqn:E; cbn [negb].
  - repeat split; try discriminate.
    + destruct (visibilityState w); cbn; intros [H|H]; congruence.
    + now intros _ ->.
  - repeat split; try discriminate; cbn; auto using lookup_delete_eq.
    apply lookup_delete_eq.
Qed.

Lemma no_session_policy_witness :
  let w := with_visibilityState Hidden
             (with_localStorage
                (<[USER_CACHE_KEY := JSON.stringify (user_json Sample.alice)]> ∅)
                Sample.world) in
  checkSessionQuietly (SessionData None) Sample.noRows (w, Sample.auth) = (w, Sample.auth).
Proof.
  cbv zeta.
  apply (no_session_policy Sample.noRows _ Sample.auth Sample.alice eq_refl);
    reflexivity.
Defined.

(** Without a cached record and without an identity in memory, a report of
    no session leaves the identity null and creates no record. *)
Lemma no_session_no_identity db w a :
  user a = None ->
  checkSessionQuietly (SessionData None) db (w, a) = (w, a).
Proof. intros H. unfold checkSessionQuietly. now rewrite H. Qed.

End AuthFacts.

(** ** Credential injection *)

Module FetchFacts.
Import JSON JS Aux.

(** *** [ensureTokenInRequests] *)

(** X13.  [ensureTokenInRequests]: an [Authorization] header given in
    [init.headers], in whatever letter case, goes out unchanged. *)
Lemma ensureToken_keeps_explicit_header w input init v :
  Tab.sentAuthorization (input, Some init) = Some v ->
  is_Some (headers init) ->
  Tab.sentAuthorization (Tab.ensureToken_pass w (input, Some init)) = Some v.
Proof.
  intros Hv [h Hh]. unfold Tab.ensureToken_pass. cbn [fst snd].
  destruct (_ && _); [|exact Hv].
  unfold Tab.sentAuthorization in *. cbn [fst snd headers] in *. rewrite Hh in *.
  assert (Tab.Headers_has "Authorization" (Tab.Headers_new (Some h)) = true) as ->.
  { unfold Tab.Headers_has. change (Str.lower "Authorization") with "authorization".
    apply bool_decide_eq_true_2. rewrite Hv. eauto. }
  exact Hv.
Qed.

(** X14.  The only change [ensureTokenInRequests] makes to the
    [Authorization] header a request goes out with is to put
    [Bearer <token>] there, and it makes it only when the URL starts with
    [/] or with the page's origin or contains the Supabase URL (the
    source's [isSameOrigin || isSupabaseCall]), a token is cached and
    [init.headers] name no [Authorization]. *)
Lemma ensureToken_adds_only_when w input init :
  Tab.sentAuthorization (Tab.ensureToken_pass w (input, init)) <>
  Tab.sentAuthorization (input, init) ->
  (Str.startsWith "/" (Tab.request_url input) ||
   Str.startsWith (origin w) (Tab.request_url input) ||
   Str.includes (match supabaseUrl w with Some u => u | None => EmptyString end)
     (Tab.request_url input)) = true /\
  truthy (Tab.getAuthToken w) = true /\
  Tab.Headers_new (match init with Some i => headers i | None => None end)
    !! "authorization" = None /\
  Tab.sentAuthorization (Tab.ensureToken_pass w (input, init)) =
    Some (Tab.bearer (Tab.getAuthToken w)).
Proof.
  unfold Tab.ensureToken_pass. cbn [fst snd].
  change (Str.startsWith "/" (Tab.request_url input) ||
          Str.startsWith (origin w) (Tab.request_url input))
    with (Tab.isSameOrigin w (Tab.request_url input)).
  change (Str.includes (match supabaseUrl w with Some u => u | None => EmptyString end)
            (Tab.request_url input))
    with (Tab.isSupabaseCall w (Tab.request_url input)).
  destruct (_ || _); destruct (truthy _); cbn [andb];
    try (intros H; exfalso; apply H; now destruct init).
  set (given := match init with Some i => headers i | None => None end).
  assert (Hg : headers match init with
                       | Some i => i
                       | None => {| headers := None; method := None; body := None |}
                       end = given) by now destruct init.
  rewrite Hg. unfold Tab.sentAuthorization at 1 3. cbn [fst snd headers].
  change (Tab.Headers_new (Some (HeadersObject ?x))) with x.
  unfold Tab.Headers_has. change (Str.lower "Authorization") with "authorization".
  change (Str.lower "authorization") with "authorization".
  rewrite orb_diag. case_bool_decide as Hhas.
  - intros H. exfalso. apply H. unfold Tab.sentAuthorization. cbn [fst snd].
    destruct init as [i|]; cbn in given; subst given;
      [|destruct Hhas as [? Hhas]; cbn in Hhas; now rewrite lookup_empty in Hhas].
    destruct (headers i) as [h|]; [reflexivity|].
    destruct Hhas as [? Hhas]. cbn in Hhas. now rewrite lookup_empty in Hhas.
  - intros _. repeat split.
    + destruct (Tab.Headers_new given !! "authorization") eqn:E; [|reflexivity].
      exfalso. apply Hhas. eauto.
    + unfold Tab.Headers_set. change (Str.lower "Authorization") with "authorization".
      apply lookup_insert_eq.
Qed.

Lemma Headers_has_set name v h :
  Tab.Headers_has name (Tab.Headers_set name v h) = true.
Proof.
  unfold Tab.Headers_has, Tab.Headers_set. rewrite lookup_insert_eq.
  apply bool_decide_eq_true_2. eauto.
Qed.

(** A second pass of the wrapper changes nothing. *)
Lemma ensureToken_pass_idempotent w req :
  Tab.ensureToken_pass w (Tab.ensureToken_pass w req) = Tab.ensureToken_pass w req.
Proof.
  destruct req as [input init].
  unfold Tab.ensureToken_pass at 2. cbn [fst snd].
  destruct (_ && _) eqn:E; unfold Tab.ensureToken_pass; cbn [fst snd]; rewrite E;
    [|reflexivity].
  cbn [headers method body].
  change (Tab.Headers_new (Some (HeadersObject ?x))) with x.
  set (h := Tab.Headers_new _).
  destruct (Tab.Headers_has "Authorization" h || Tab.Headers_has "authorization" h) eqn:Eh.
  - now rewrite Eh.
  - now rewrite Headers_has_set.
Qed.

Lemma through_idempotent_head chain w req :
  Tab.through (EnsureToken :: EnsureToken :: chain) w req =
  Tab.through (EnsureToken :: chain) w req.
Proof. cbn [Tab.through Tab.pass]. now rewrite ensureToken_pass_idempotent. Qed.

(** What the wrappers do to a request does not depend on how many of them
    are installed. *)
Lemma through_install chain w req :
  Tab.through chain (Tab.ensureTokenInRequests w) req = Tab.through chain w req.
Proof.
  revert req. induction chain as [|i chain IH]; intros req; [reflexivity|].
  cbn [Tab.through]. rewrite IH. now destruct i.
Qed.

Lemma through_installs n chain w req :
  Tab.through chain (Nat.iter n Tab.ensureTokenInRequests w) req = Tab.through chain w req.
Proof.
  induction n as [|n IH]; [reflexivity|]. now rewrite Nat.iter_succ, through_install.
Qed.

Lemma fetchChain_installs n w :
  fetchChain (Nat.iter n Tab.ensureTokenInRequests w) = (repeat EnsureToken n ++ fetchChain w)%list.
Proof.
  induction n as [|n IH]; [reflexivity|]. rewrite Nat.iter_succ.
  cbn [Tab.ensureTokenInRequests fetchChain with_fetchChain repeat app]. now rewrite IH.
Qed.

Lemma network_installs n w :
  network (Nat.iter n Tab.ensureTokenInRequests w) = network w.
Proof. induction n as [|n IH]; [reflexivity|]. rewrite Nat.iter_succ. exact IH. Qed.

Lemma through_repeat n chain w req :
  Tab.through (repeat EnsureToken (S n) ++ chain)%list w req =
  Tab.through (EnsureToken :: chain) w req.
Proof.
  induction n as [|n IH]; [reflexivity|].
  change (repeat EnsureToken (S (S n)) ++ chain)%list
    with (EnsureToken :: EnsureToken :: (repeat EnsureToken n ++ chain)%list).
  rewrite through_idempotent_head. exact IH.
Qed.

(** C5 as stated fails: the second installation is not a no-op, it wraps
    [window.fetch] once more. *)
Lemma ensureTokenInRequests_wraps_again :
  ensureTokenInRequests (Browser Sample.world) =
    Browser (with_fetchChain [EnsureToken] Sample.world) /\
  ensureTokenInRequests (ensureTokenInRequests (Browser Sample.world)) =
    Browser (with_fetchChain [EnsureToken; EnsureToken] Sample.world).
Proof. split; reflexivity. Qed.

(** C5, as the code has it.  Each installation adds a wrapper, yet however
    often the injector is installed, a call of [fetch] reaches the native
    primitive exactly once, with the request a single installation would
    hand down. *)
Theorem ensureTokenInRequests_repeated
    (n : nat) (w : World) (input : RequestInfo) (init : option RequestInit) :
  let installed := Nat.iter (S n) Tab.ensureTokenInRequests w in
  fetchChain installed = (repeat EnsureToken (S n) ++ fetchChain w)%list /\
  network (Tab.fetch input init installed) =
    (network w ++ [Tab.through (EnsureToken :: fetchChain w) w (input, init)])%list /\
  network (Tab.fetch input init installed) =
    network (Tab.fetch input init (Tab.ensureTokenInRequests w)).
Proof.
  cbv zeta. split; [apply fetchChain_installs|].
  assert (H : forall m, network (Tab.fetch input init (Nat.iter (S m) Tab.ensureTokenInRequests w)) =
            (network w ++ [Tab.through (EnsureToken :: fetchChain w) w (input, init)])%list).
  { intros m. unfold Tab.fetch. cbn [network with_network].
    rewrite network_installs, fetchChain_installs, through_installs, through_repeat.
    reflexivity. }
  split; [apply H|]. rewrite H. symmetry. apply (H O).
Qed.

(** C2.  Where the code departs from the claim.  With the token [T] cached
    and the page at [https://app.example]:
    - the wrapper of [ensureTokenInRequests] takes the scheme-relative
      [//evil.example/collect] for a same-origin path and attaches the
      token to it, while it leaves the same host alone when written with
      its scheme;
    - given a [Request] that carries its own [Authorization] header, it
      sends [init.headers] holding the token, which replace that header;
    - the wrapper of [applySwitchPreventionToFetch] replaces an explicit
      [Authorization] header, on a host that is neither the page's origin
      nor the configured one. *)
Theorem injector_departures :
  let w := Sample.signedIn in
  let third := "https://third.example/api" in
  let explicit := explicitInit [("Authorization", "Basic abc")] in
  let own := RequestObject "https://app.example/api" {["authorization" := "Basic abc"]} in
  Tab.getAuthToken w = VStr "T" /\
  map Tab.sentAuthorization
    (network (Tab.fetch (UrlString "//evil.example/collect") None
                (Tab.ensureTokenInRequests w)))
    = [Some "Bearer T"] /\
  map Tab.sentAuthorization
    (network (Tab.fetch (UrlString "https://evil.example/collect") None
                (Tab.ensureTokenInRequests w)))
    = [None] /\
  Tab.sentAuthorization (own, None) = Some "Basic abc" /\
  map Tab.sentAuthorization
    (network (Tab.fetch own None (Tab.ensureTokenInRequests w)))
    = [Some "Bearer T"] /\
  Tab.isSameOrigin w third = false /\ Tab.isSupabaseCall w third = false /\
  Tab.sentAuthorization (UrlString third, explicit) = Some "Basic abc" /\
  map Tab.sentAuthorization
    (network (Tab.fetch (UrlString third) explicit (Tab.applySwitchPreventionToFetch w)))
    = [Some "Bearer T"].
Proof. cbv zeta. repeat split; vm_compute; reflexivity. Qed.

(** Further inputs on which [ensureTokenInRequests] sends the token off
    the origin: a host that merely begins with the origin's text, and any
    URL once the Supabase URL is not configured. *)
Lemma ensureToken_further_departures :
  map Tab.sentAuthorization
    (network (Tab.fetch (UrlString "https://app.example.evil.test/x") None
                (Tab.ensureTokenInRequests Sample.signedIn)))
    = [Some "Bearer T"] /\
  map Tab.sentAuthorization
    (network (Tab.fetch (UrlString "https://third.example/api") None
       (Tab.ensureTokenInRequests
          (with_localStorage (localStorage Sample.signedIn)
             {| localStorage := ∅; sessionStorage := ∅; bodyClasses := ∅;
                visibilityState := Visible; pathname := "/";
                origin := "https://app.example"; supabaseUrl := None;
                now := 0; entropy := []; timers := []; fetchChain := [];
                visibilityListeners := 0; network := [];
                cacheNames := None; idbNames := None |}))))
    = [Some "Bearer T"].
Proof. split; vm_compute; reflexivity. Qed.

End FetchFacts.

(** ** The suppression window *)

Module WindowFacts.
Import JSON JS Aux TabFacts AuthFacts.

Lemma run_action_frame act w :
  timers (Tab.run_action act w) = timers w /\ now (Tab.run_action act w) = now w.
Proof. now destruct act. Qed.

Lemma run_action_clear act w : markers_clear w -> markers_clear (Tab.run_action act w).
Proof.
  intros [Hf Hc]. destruct act; split; cbn.
  - apply lookup_delete_eq.
  - apply not_elem_of_difference. right. now apply elem_of_singleton.
  - now rewrite lookup_delete_ne.
  - exact Hc.
Qed.

Lemma run_actions_frame l w :
  let w' := fold_left (fun (w : World) (tm : Z * TimerAction) => Tab.run_action (snd tm) w) l w in
  timers w' = timers w /\ now w' = now w.
Proof.
  revert w. induction l as [|tm l IH]; intros w; [now split|].
  cbn [fold_left]. destruct (IH (Tab.run_action (snd tm) w)) as [Ht Hn].
  destruct (run_action_frame (snd tm) w) as [Ht' Hn']. cbv zeta in *.
  split; congruence.
Qed.

Lemma run_actions_clear l w :
  markers_clear w ->
  markers_clear (fold_left (fun (w : World) (tm : Z * TimerAction) => Tab.run_action (snd tm) w) l w).
Proof.
  revert w. induction l as [|tm l IH]; intros w Hc; [exact Hc|].
  cbn [fold_left]. now apply IH, run_action_clear.
Qed.

Lemma run_actions_clears l w due :
  In (due, ClearSwitchMarkers) l ->
  markers_clear (fold_left (fun (w : World) (tm : Z * TimerAction) => Tab.run_action (snd tm) w) l w).
Proof.
  revert w. induction l as [|tm l IH]; intros w; [intros []|].
  intros [->|Hin]; cbn [fold_left].
  - apply run_actions_clear. split; cbn.
    + apply lookup_delete_eq.
    + apply not_elem_of_difference. right. now apply elem_of_singleton.
  - now apply IH.
Qed.

Lemma run_actions_listeners l w :
  visibilityListeners
    (fold_left (fun (w : World) (tm : Z * TimerAction) => Tab.run_action (snd tm) w) l w) =
  visibilityListeners w.
Proof.
  revert w. induction l as [|tm l IH]; intros w; [reflexivity|].
  cbn [fold_left]. rewrite IH. now destruct (snd tm).
Qed.

Lemma elapse_now ms w : now (Tab.elapse ms w) = now w + Z.of_N ms.
Proof.
  unfold Tab.elapse.
  match goal with |- now (fold_left _ ?l ?w0) = _ =>
    destruct (run_actions_frame l w0) as [_ ->] end.
  reflexivity.
Qed.

Lemma elapse_inv deadline ms w :
  window_inv deadline w -> window_inv deadline (Tab.elapse ms w).
Proof.
  intros [Hc|(due & Hin & Hnow & Hdue)]; unfold Tab.elapse.
  - left. now apply run_actions_clear.
  - destruct (Z.leb_spec due (now w + Z.of_N ms)) as [Hle|Hgt].
    + left. apply (run_actions_clears _ _ due).
      apply filter_In. split; [exact Hin|]. unfold Tab.is_due. cbn [fst]. lia.
    + right. exists due.
      match goal with |- context [fold_left ?f ?l ?w0] =>
        destruct (run_actions_frame l w0) as [-> ->] end.
      cbn [timers now with_timers with_now]. repeat split; try lia.
      apply filter_In. split; [exact Hin|]. unfold Tab.is_due. cbn [fst].
      apply negb_true_iff. lia.
Qed.

(** One run of the listener: it appends at most a timer and leaves the
    markers, the clock and the visibility state alone. *)
Lemma saveTabState_frame extra w :
  let w' := Tab.saveTabState extra w in
  sessionStorage w' !! RETURNING_FLAG = sessionStorage w !! RETURNING_FLAG /\
  bodyClasses w' = bodyClasses w /\ timers w' = timers w /\ now w' = now w /\
  visibilityState w' = visibilityState w /\
  visibilityListeners w' = visibilityListeners w.
Proof.
  unfold Tab.saveTabState.
  destruct (getTabId_spec w) as (_ & _ & _ & Hn & _ & Hb & Ht & Hv & Hl & Hs).
  cbv zeta in *. destruct (Tab.getTabId w) as [tabId w1]. cbn in *.
  repeat split; auto; try (now apply Hs).
Qed.

Lemma onVisibilityChange_frame w :
  let w' := Tab.onVisibilityChange w in
  sessionStorage w' !! RETURNING_FLAG = sessionStorage w !! RETURNING_FLAG /\
  bodyClasses w' = bodyClasses w /\ now w' = now w /\
  visibilityState w' = visibilityState w /\
  visibilityListeners w' = visibilityListeners w /\
  (forall tm, In tm (timers w) -> In tm (timers w')) /\
  (visibilityState w = Visible -> In (now w + 2500, ClearSwitchMarkers) (timers w')).
Proof.
  unfold Tab.onVisibilityChange, Tab.setTimeout. cbv zeta.
  destruct (visibilityState w) eqn:Ev.
  - destruct (saveTabState_frame [("lastVisible", VNum (now w))] w)
      as (Hs & Hb & Ht & Hn & Hv & Hl). cbv zeta in *.
    cbn [sessionStorage bodyClasses now visibilityState visibilityListeners timers
         with_timers].
    rewrite Ht, Hn. repeat split; auto; try congruence.
    + intros tm Hin. apply in_or_app. now left.
    + intros _. apply in_or_app. right. now left.
  - destruct (saveTabState_frame [("lastHidden", VNum (now w))] w)
      as (Hs & Hb & Ht & Hn & Hv & Hl). cbv zeta in *.
    rewrite Ht. repeat split; auto; try congruence.
Qed.

Lemma listeners_frame n w :
  let w' := Nat.iter n Tab.onVisibilityChange w in
  sessionStorage w' !! RETURNING_FLAG = sessionStorage w !! RETURNING_FLAG /\
  bodyClasses w' = bodyClasses w /\ now w' = now w /\
  visibilityState w' = visibilityState w /\
  visibilityListeners w' = visibilityListeners w /\
  (forall tm, In tm (timers w) -> In tm (timers w')) /\
  (visibilityState w = Visible -> (0 < n)%nat ->
   In (now w + 2500, ClearSwitchMarkers) (timers w')).
Proof.
  induction n as [|n IH]; cbv zeta.
  - repeat split; auto. lia.
  - rewrite Nat.iter_succ. cbv zeta in IH.
    destruct IH as (Hs & Hb & Hn & Hv & Hl & Ht & _).
    destruct (onVisibilityChange_frame (Nat.iter n Tab.onVisibilityChange w))
      as (Hs' & Hb' & Hn' & Hv' & Hl' & Ht' & Ha'). cbv zeta in *.
    repeat split; try congruence.
    + intros tm Hin. auto.
    + intros Hvis _. rewrite <- Hn. apply Ha'. congruence.
Qed.

Lemma visibilitychange_inv deadline v w :
  window_inv deadline w -> window_inv deadline (Tab.visibilitychange v w).
Proof.
  unfold Tab.visibilitychange.
  destruct (listeners_frame (visibilityListeners w) (with_visibilityState v w))
    as (Hs & Hb & Hn & _ & _ & Ht & _). cbv zeta in *. cbn in Hs, Hb, Hn, Ht.
  intros [[Hf Hc]|(due & Hin & Hnow & Hdue)].
  - left. split; [now rewrite Hs|now rewrite Hb].
  - right. exists due. rewrite Hn. auto.
Qed.

Lemma step_inv deadline ev p :
  window_inv deadline (fst p) -> window_inv deadline (fst (step ev p)).
Proof.
  destruct p as [w a]. destruct ev as [| |ms|r db]; cbn [step fst snd].
  - apply visibilitychange_inv.
  - apply visibilitychange_inv.
  - apply elapse_inv.
  - destruct (checkSessionQuietly_frame r db w a) as (Hs & Hb & Ht & Hn & _).
    cbv zeta in *. unfold window_inv, markers_clear, armed.
    rewrite Hs, Hb, Ht, Hn. auto.
Qed.

Lemma run_inv deadline evs p :
  window_inv deadline (fst p) -> window_inv deadline (fst (run evs p)).
Proof.
  revert p. unfold run. induction evs as [|ev evs IH]; intros p H; [exact H|].
  cbn [fold_left]. now apply IH, step_inv.
Qed.

Lemma step_now ev p :
  now (fst (step ev p)) =
  now (fst p) + match ev with EvElapse ms => Z.of_N ms | _ => 0 end.
Proof.
  destruct p as [w a]. destruct ev as [| |ms|r db]; cbn [step fst snd].
  - unfold Tab.visibilitychange.
    destruct (listeners_frame (visibilityListeners w) (with_visibilityState Hidden w))
      as (_ & _ & -> & _). cbn. lia.
  - unfold Tab.visibilitychange.
    destruct (listeners_frame (visibilityListeners w) (with_visibilityState Visible w))
      as (_ & _ & -> & _). cbn. lia.
  - apply elapse_now.
  - destruct (checkSessionQuietly_frame r db w a) as (_ & _ & _ & -> & _). lia.
Qed.

Lemma run_now evs p : now (fst (run evs p)) = now (fst p) + elapsed evs.
Proof.
  revert p. unfold run. induction evs as [|ev evs IH]; intros p; cbn [fold_left elapsed].
  - lia.
  - rewrite IH, step_now. destruct ev; lia.
Qed.

Lemma step_listeners ev p :
  visibilityListeners (fst (step ev p)) = visibilityListeners (fst p).
Proof.
  destruct p as [w a]. destruct ev as [| |ms|r db]; cbn [step fst snd].
  - unfold Tab.visibilitychange.
    now destruct (listeners_frame (visibilityListeners w) (with_visibilityState Hidden w))
      as (_ & _ & _ & _ & -> & _).
  - unfold Tab.visibilitychange.
    now destruct (listeners_frame (visibilityListeners w) (with_visibilityState Visible w))
      as (_ & _ & _ & _ & -> & _).
  - unfold Tab.elapse. now rewrite run_actions_listeners.
  - now destruct (checkSessionQuietly_frame r db w a) as (_ & _ & _ & _ & ->).
Qed.

Lemma run_listeners evs p :
  visibilityListeners (fst (run evs p)) = visibilityListeners (fst p).
Proof.
  revert p. unfold run. induction evs as [|ev evs IH]; intros p; [reflexivity|].
  cbn [fold_left]. now rewrite IH, step_listeners.
Qed.

Lemma show_arms w a :
  (0 < visibilityListeners w)%nat ->
  window_inv (now w + 2500) (fst (step EvShow (w, a))).
Proof.
  intros Hl. right. cbn [step fst snd]. unfold Tab.visibilitychange.
  destruct (listeners_frame (visibilityListeners w) (with_visibilityState Visible w))
    as (_ & _ & Hn & _ & _ & _ & Ha). cbv zeta in *. cbn in Hn, Ha.
  exists (now w + 2500). rewrite Hn. repeat split; [now apply Ha|lia|lia].
Qed.

Lemma run_app evs1 evs2 p : run (evs1 ++ evs2)%list p = run evs2 (run evs1 p).
Proof. unfold run. apply fold_left_app. Qed.

(** C7, as the code has it.  With the listener of
    [applySwitchPreventionToFetch] registered, take any events up to a
    show and any events after it (hides, shows, revalidations completing or
    not, time passing): once 2500 ms have passed since the show, the flag
    [returning_from_tab_switch] and the class [tab-just-activated] are
    gone. *)
Theorem switch_markers_cleared_within_window
    (w : World) (a : AuthState) (before after : list Event) :
  2500 <= elapsed after ->
  let w' := fst (run (before ++ EvShow :: after)%list
                   (Tab.applySwitchPreventionToFetch w, a)) in
  sessionStorage w' !! RETURNING_FLAG = None /\ TAB_ACTIVE_CLASS ∉ bodyClasses w'.
Proof.
  intros Hel. cbv zeta.
  change (before ++ EvShow :: after)%list with (before ++ [EvShow] ++ after)%list.
  rewrite !run_app.
  set (p1 := run before (Tab.applySwitchPreventionToFetch w, a)).
  assert (Hl : (0 < visibilityListeners (fst p1))%nat).
  { unfold p1. rewrite run_listeners. cbn. lia. }
  change (run [EvShow] p1) with (step EvShow p1).
  set (p2 := step EvShow p1).
  assert (Hinv : window_inv (now (fst p1) + 2500) (fst p2)).
  { unfold p2. destruct p1 as [w1 a1]. now apply show_arms. }
  apply (run_inv _ after) in Hinv.
  pose proof (run_now after p2) as Hnow.
  assert (now (fst p2) = now (fst p1)) as Hp2.
  { unfold p2. rewrite step_now. lia. }
  destruct Hinv as [Hc|(due & _ & Hlt & Hle)]; [exact Hc|lia].
Qed.

Lemma switch_markers_cleared_within_window_witness :
  let w' := fst (run ([EvHide; EvElapse 10000] ++
                      EvShow :: [EvRevalidated SessionThrows Sample.noRows;
                                 EvElapse 2500])%list
                   (Tab.applySwitchPreventionToFetch Sample.flagged, Sample.auth)) in
  sessionStorage w' !! RETURNING_FLAG = None /\ TAB_ACTIVE_CLASS ∉ bodyClasses w'.
Proof.
  apply (switch_markers_cleared_within_window Sample.flagged Sample.auth
           [EvHide; EvElapse 10000]
           [EvRevalidated SessionThrows Sample.noRows; EvElapse 2500]).
  cbn [elapsed]. lia.
Defined.

(** C7 as stated fails for [prevent_auto_refresh]: the 2500 ms callback
    does not remove it.  Set by [preventNextTabSwitchRefresh] just before a
    show, it is still there 2500 ms after the show, and
    [isReturningFromTabSwitch] still answers true; its own callback removes
    it after 5000 ms. *)
Lemma prevent_auto_refresh_outlives_window :
  let w0 := Tab.preventNextTabSwitchRefresh
              (Tab.applySwitchPreventionToFetch Sample.signedIn) in
  let w1 := fst (run [EvShow; EvElapse 2500] (w0, Sample.auth)) in
  let w2 := fst (run [EvShow; EvElapse 5000] (w0, Sample.auth)) in
  sessionStorage w1 !! PREVENT_REFRESH = Some "1700000000000" /\
  Tab.isReturningFromTabSwitch w1 = true /\
  sessionStorage w2 !! PREVENT_REFRESH = None.
Proof. cbv zeta. repeat split; vm_compute; reflexivity. Qed.

(** Hidden for ten seconds, then shown: [isReturningFromTabSwitch] is
    false again once the window has passed, when nothing else set a flag. *)
Lemma returning_false_after_window :
  let w0 := Tab.applySwitchPreventionToFetch
              (with_bodyClasses {[TAB_ACTIVE_CLASS]}
                 (with_sessionStorage (<[RETURNING_FLAG := "true"]> ∅) Sample.signedIn)) in
  Tab.isReturningFromTabSwitch
    (fst (run [EvHide; EvElapse 10000; EvShow] (w0, Sample.auth))) = true /\
  Tab.isReturningFromTabSwitch
    (fst (run [EvHide; EvElapse 10000; EvShow; EvElapse 2500] (w0, Sample.auth))) = false.
Proof. cbv zeta. split; vm_compute; reflexivity. Qed.

End WindowFacts.

(** ** The sign-out purge *)

Module SignOutFacts.
Import JSON JS Aux.

(** *** Store operations *)








(** *** Weakest preconditions *)

Lemma wp_act f Q E p : wp (act f) Q E p <-> Q (f p).
Proof. reflexivity. Qed.

Lemma wp_seq m k Q E p : wp (and_then m k) Q E p <-> wp m (wp k Q E) E p.
Proof. unfold wp, and_then. now destruct (m p) as [p' []]. Qed.

Lemma wp_catch m h Q E p : wp (try_catch m h) Q E p <-> wp m Q (wp h Q E) p.
Proof. unfold wp, try_catch. now destruct (m p) as [p' []]. Qed.

Lemma wp_skip Q E p : wp skip Q E p <-> Q p.
Proof. reflexivity. Qed.

Lemma wp_call fault pt Q E p :
  wp (call fault pt) Q E p <->
  (fault = Some pt -> E p) /\ (fault <> Some pt -> Q p).
Proof.
  unfold wp, call. case_bool_decide; tauto.
Qed.

Lemma wp_router fault awaits Q E p :
  wp (router_push_home fault awaits) Q E p <->
  (pathname (fst p) = "/" -> Q p) /\
  (pathname (fst p) <> "/" ->
   wp (and_then (if awaits then call fault AtRouterPush else skip)
         (act (on_world (with_pathname "/")))) Q E p).
Proof.
  unfold wp at 1, router_push_home.
  destruct (String.eqb_spec (pathname (fst p)) "/") as [Heq|Hne].
  - split.
    + intros H. split; [intros _; exact H|intros Hn; contradiction].
    + intros [H _]. now apply H.
  - split.
    + intros H. split; [intros Hn; contradiction|intros _; exact H].
    + intros [_ H]. now apply H.
Qed.

(** What holds in either outcome holds of the state the action ends in. *)
Lemma wp_fst m Q p : wp m Q Q p -> Q (fst (m p)).
Proof. unfold wp. now destruct (m p) as [p' []]. Qed.

Lemma signOut_unfold fault remote p :
  signOut fault remote p =
  on_auth (setIsLoading false)
    (fst (try_catch (signOut_body fault remote) (signOut_emergency fault) p)).
Proof.
  unfold signOut, try_finally.
  now destruct (try_catch (signOut_body fault remote) (signOut_emergency fault) p).
Qed.

(** Symbolic execution of an action, one goal per path. *)
Ltac exec :=
  repeat match goal with
         | |- wp (and_then _ _) _ _ _ => apply wp_seq
         | |- wp (act _) _ _ _ => apply wp_act
         | |- wp skip _ _ _ => apply wp_skip
         | |- wp (try_catch _ _) _ _ _ => apply wp_catch
         | |- wp (call _ _) _ _ _ => apply wp_call; split; intros ?
         | |- wp (router_push_home _ _) _ _ _ => apply wp_router; split; intros ?
         | |- wp (if true then _ else _) _ _ _ => cbv iota
         | |- wp (if false then _ else _) _ _ _ => cbv iota
         end.

Ltac project :=
  cbn [fst snd on_auth on_world on_durable on_volatile awaited
       clearLocalStorage clearSessionStorage clearCachesAndDatabases
       recheckCriticalKeys supabaseSignOut
       localStorage sessionStorage pathname
       with_localStorage with_sessionStorage with_pathname with_cacheNames with_idbNames
       user isLoading toasts reloadIn setUser setIsLoading toast_success scheduleReload
       getAuthToken] in *.





(** Without an exception and with nothing happening meanwhile the same tab
    ends with both sample keys gone. *)
Lemma signOut_sample_clean :
  let p' := signOut None Sample.quiet (Sample.dirty, Sample.auth) in
  reloadIn (snd p') = Some 500 /\
  map_to_list (localStorage (fst p')) = [("theme", "x")] /\
  sessionStorage (fst p') = ∅ /\
  pathname (fst p') = "/".
Proof. cbv zeta. repeat split; vm_compute; reflexivity. Qed.

End SignOutFacts.

(** ** More about the tab utilities *)

Module MoreTabFacts.
Import JSON JS Aux JSONAux JSONFacts JSFacts TabFacts.

(** X1.  [getAuthToken] returns null or a truthy value, never an empty
    string, zero or false; so [if (token)] and [token !== null] agree. *)
Theorem getAuthToken_null_or_truthy (e : Env) :
  getAuthToken e = VNull \/ truthy (getAuthToken e) = true.
Proof.
  destruct e as [|w]; [now left|]. cbn [getAuthToken]. unfold Tab.getAuthToken.
  destruct (localStorage w !! AUTH_TOKEN_KEY) as [s|]; [|now left].
  destruct (Str.nonempty s); [|now left].
  destruct (JSON.parse s) as [v|]; [|now left].
  destruct (prop "access_token" v) as [t|]; [|now left].
  destruct (truthy t) eqn:E; [now right|now left].
Qed.

(** X2.  Whatever object the collaborator serialised under
    [aditi_supabase_auth], [getAuthToken] returns its [access_token] when
    that is truthy. *)
Theorem getAuthToken_reads_blob (w : World) (fields : list (string * value)) (t : value) :
  localStorage w !! AUTH_TOKEN_KEY = Some (JSON.stringify (VObj fields)) ->
  obj_get "access_token" fields = Some t ->
  truthy t = true ->
  getAuthToken (Browser w) = t.
Proof.
  intros Hs Ht Htr. cbn [getAuthToken]. unfold Tab.getAuthToken.
  rewrite Hs, stringify_nonempty, parse_stringify. cbn [prop]. now rewrite Ht, Htr.
Qed.

Lemma getAuthToken_reads_blob_witness :
  getAuthToken (Browser Sample.signedIn) = VStr "T".
Proof.
  apply (getAuthToken_reads_blob Sample.signedIn
           [("access_token", VStr "T"); ("expires_at", VNum 1700003600);
            ("user", VObj [("id", VStr "u1")])] (VStr "T")); reflexivity.
Defined.

Lemma parse_cannot_be_json s : cannot_be_json s = true -> JSON.parse s = None.
Proof.
  destruct s as [|c s']; [reflexivity|]. cbn [cannot_be_json].
  intros H%negb_true_iff. apply orb_false_iff in H as [H _].
  unfold value_start, number_start in H.
  repeat match type of H with _ || _ = false => apply orb_false_iff in H as [H ?] end.
  unfold JSON.parse. cbn [parse_value String.length].
  repeat match goal with E : Ascii.eqb c _ = false |- _ => rewrite E; clear E end.
  unfold parse_number, lex_number. rewrite H. cbn [span_digits].
  match goal with E : is_digit c = false |- _ => rewrite E end.
  reflexivity.
Qed.

(** X3.  A stored text that cannot be JSON (it is empty, or starts with a
    character that is neither white space nor the start of a value), or
    that is read as a value whose [access_token] is missing or falsy, gives
    null: the parse error is swallowed. *)
Theorem getAuthToken_unusable_blob (w : World) (s : string) :
  localStorage w !! AUTH_TOKEN_KEY = Some s ->
  cannot_be_json s = true \/
  (exists v, JSON.parse s = Some v /\
     match prop "access_token" v with Some t => truthy t = false | None => True end) ->
  getAuthToken (Browser w) = VNull.
Proof.
  intros Hs H. cbn [getAuthToken]. unfold Tab.getAuthToken. rewrite Hs.
  destruct (Str.nonempty s); [|reflexivity].
  destruct H as [->%parse_cannot_be_json|(v & -> & Hv)]; [reflexivity|].
  destruct (prop "access_token" v) as [t|]; [now rewrite Hv|reflexivity].
Qed.

Lemma getAuthToken_unusable_blob_witness :
  getAuthToken (Browser (with_localStorage (<[AUTH_TOKEN_KEY := "undefined"]> ∅)
                           Sample.world)) = VNull.
Proof.
  apply (getAuthToken_unusable_blob _ "undefined"); [reflexivity|].
  left. reflexivity.
Defined.

(** X4.  In a browser [getTabId] never returns the empty string, and the
    id it returns is the one the volatile store then holds; the empty
    string is returned only where there is no [window]. *)
Theorem getTabId_empty_only_on_server (e : Env) :
  match snd (getTabId e) with
  | Server => e = Server /\ fst (getTabId e) = EmptyString
  | Browser w' =>
      Str.nonempty (fst (getTabId e)) = true /\
      sessionStorage w' !! TAB_ID_KEY = Some (fst (getTabId e))
  end.
Proof.
  destruct e as [|w]; [now split|].
  rewrite getTabId_browser. cbn [fst snd].
  destruct (getTabId_spec w) as (Hs & Hne & _). cbv zeta in *. now split.
Qed.

Lemma print_Z_inj n1 n2 : print_Z n1 = print_Z n2 -> n1 = n2.
Proof.
  intros H. apply DecimalZ.to_int_inj.
  pose proof (int_of_string_print n1) as H1. rewrite H, int_of_string_print in H1.
  congruence.
Qed.

Lemma fresh_id_inj n1 r1 n2 r2 :
  "tab_" +:+ print_Z n1 +:+ "_" +:+ r1 = "tab_" +:+ print_Z n2 +:+ "_" +:+ r2 ->
  n1 = n2 /\ r1 = r2.
Proof.
  intros H. repeat rewrite app_cons in H. rewrite !app_nil in H.
  injection H as H.
  assert (Hnd : forall r, nondigit (String "_" r)) by (intros r; reflexivity).
  pose proof (lex_number_print n1 (String "_" r1) (Hnd r1)) as L1.
  rewrite H, (lex_number_print n2 _ (Hnd r2)) in L1.
  injection L1 as Hp Hr. split; [symmetry; now apply print_Z_inj|now symmetry].
Qed.

(** X5.  Two tabs without a stored id that get the same fresh id started
    at the same millisecond and drew the same random suffix: the id is an
    injective function of the time stamp and the suffix. *)
Theorem getTabId_fresh_injective (w1 w2 : World) :
  sessionStorage w1 !! TAB_ID_KEY = None ->
  sessionStorage w2 !! TAB_ID_KEY = None ->
  fst (getTabId (Browser w1)) = fst (getTabId (Browser w2)) ->
  now w1 = now w2 /\ next_suffix w1 = next_suffix w2.
Proof.
  intros H1 H2. rewrite !getTabId_browser. cbn [fst].
  unfold Tab.getTabId, next_suffix. rewrite H1, H2.
  destruct (Tab.random_suffix w1) as [r1 w1'], (Tab.random_suffix w2) as [r2 w2'].
  cbn [fst]. apply fresh_id_inj.
Qed.

Lemma getTabId_fresh_injective_witness :
  now Sample.world = now (with_pathname "/other" Sample.world) /\
  next_suffix Sample.world = next_suffix (with_pathname "/other" Sample.world).
Proof.
  apply (getTabId_fresh_injective Sample.world (with_pathname "/other" Sample.world));
    reflexivity.
Defined.


(** X7.  [saveTabState] writes one durable key and at most the tab id in
    the volatile store: every other key of both stores, and with them the
    cached token, stay as they were. *)
Theorem saveTabState_touches_only_its_keys (extra : list (string * value)) (w : World) :
  let w' := Tab.saveTabState extra w in
  (forall k, k <> TAB_STATE_KEY -> localStorage w' !! k = localStorage w !! k) /\
  (forall k, k <> TAB_ID_KEY -> sessionStorage w' !! k = sessionStorage w !! k) /\
  Tab.getAuthToken w' = Tab.getAuthToken w /\
  bodyClasses w' = bodyClasses w /\ timers w' = timers w /\
  fetchChain w' = fetchChain w /\ network w' = network w.
Proof.
  cbv zeta. unfold Tab.saveTabState.
  destruct (getTabId_spec w) as (_ & _ & Hls & _ & _ & Hb & Ht & _ & _ & Hss).
  cbv zeta in *.
  assert (Hf : fetchChain (snd (Tab.getTabId w)) = fetchChain w /\
               network (snd (Tab.getTabId w)) = network w).
  { unfold Tab.getTabId, Tab.random_suffix.
    destruct (sessionStorage w !! TAB_ID_KEY) as [s|]; [destruct (Str.nonempty s)|];
      try destruct (entropy w); now split. }
  destruct Hf as [Hf Hn].
  destruct (Tab.getTabId w) as [tabId w1]. cbn [fst snd] in *.
  cbn [localStorage sessionStorage bodyClasses timers fetchChain network with_localStorage].
  repeat split; auto.
  - intros k Hk. rewrite lookup_insert_ne by congruence. now rewrite Hls.
  - unfold Tab.getAuthToken. cbn [localStorage with_localStorage].
    rewrite lookup_insert_ne by discriminate. now rewrite Hls.
Qed.

(** X8.  [preventNextTabSwitchRefresh] replaces the tab record by one with
    [tabId], [lastActive] and [route] only: the token copy and every extra
    field an earlier [saveTabState] stored are dropped, and
    [isReturningFromTabSwitch] answers true right after. *)
Theorem preventNextTabSwitchRefresh_resets_record
    (extra : list (string * value)) (w : World) :
  let w' := Tab.preventNextTabSwitchRefresh (Tab.saveTabState extra w) in
  Tab.restoreTabState w' =
    VObj [("tabId", VStr (fst (Tab.getTabId w))); ("lastActive", VNum (now w));
          ("route", VStr (pathname w))] /\
  prop "authToken" (Tab.restoreTabState w') = None /\
  Tab.isReturningFromTabSwitch w' = true.
Proof.
  cbv zeta.
  assert (H : Tab.restoreTabState (Tab.preventNextTabSwitchRefresh (Tab.saveTabState extra w))
              = VObj [("tabId", VStr (fst (Tab.getTabId w))); ("lastActive", VNum (now w));
                      ("route", VStr (pathname w))]).
  { destruct (getTabId_spec w) as (Hs & Hne & _ & Hnow & Hpath & _). cbv zeta in *.
    unfold Tab.saveTabState.
    destruct (Tab.getTabId w) as [tabId w1]. cbn [fst snd] in *.
    unfold Tab.preventNextTabSwitchRefresh.
    set (w0 := with_sessionStorage _ _).
    assert (Hid : Tab.getTabId w0 = (tabId, w0)).
    { unfold Tab.getTabId, w0. cbn [sessionStorage with_sessionStorage with_localStorage].
      rewrite lookup_insert_ne by discriminate. now rewrite Hs, Hne. }
    rewrite Hid. unfold Tab.restoreTabState, Tab.setTimeout.
    cbn [localStorage with_timers with_localStorage].
    rewrite lookup_insert_eq, stringify_nonempty, parse_stringify.
    unfold w0. cbn [now pathname with_sessionStorage with_localStorage].
    now rewrite Hnow, Hpath. }
  split; [exact H|]. split; [now rewrite H|].
  unfold Tab.isReturningFromTabSwitch, Tab.preventNextTabSwitchRefresh.
  set (w0 := with_sessionStorage _ _).
  assert (Hp : item_truthy (sessionStorage (snd (Tab.getTabId w0)) !! PREVENT_REFRESH) = true).
  { destruct (getTabId_spec w0) as (_ & _ & _ & _ & _ & _ & _ & _ & _ & Hss).
    cbv zeta in Hss. rewrite Hss by discriminate.
    unfold w0. cbn [sessionStorage with_sessionStorage]. rewrite lookup_insert_eq.
    cbn [item_truthy]. destruct (print_Z_head (now (Tab.saveTabState extra w)))
      as (c & s & -> & _). reflexivity. }
  destruct (Tab.getTabId w0) as [tabId w1]. cbn [snd] in Hp.
  unfold Tab.setTimeout. cbn [sessionStorage with_timers with_localStorage bodyClasses].
  rewrite Hp. now rewrite orb_true_r.
Qed.

End MoreTabFacts.

(** ** More about the visibility listener and the timers *)

Module MoreWindowFacts.
Import JSON JS Aux JSONFacts JSFacts DataFacts TabFacts AuthFacts WindowFacts.

Lemma saveTabState_session extra w k :
  k <> TAB_ID_KEY ->
  sessionStorage (Tab.saveTabState extra w) !! k = sessionStorage w !! k.
Proof.
  intros Hk. unfold Tab.saveTabState.
  destruct (getTabId_spec w) as (_ & _ & _ & _ & _ & _ & _ & _ & _ & Hss).
  cbv zeta in Hss. destruct (Tab.getTabId w) as [tabId w1]. cbn in *. now apply Hss.
Qed.

Lemma onVisibilityChange_session w k :
  k <> TAB_ID_KEY ->
  sessionStorage (Tab.onVisibilityChange w) !! k = sessionStorage w !! k.
Proof.
  intros Hk. unfold Tab.onVisibilityChange, Tab.setTimeout.
  destruct (visibilityState w); cbn [sessionStorage with_timers];
    now apply saveTabState_session.
Qed.

Lemma listeners_session n w k :
  k <> TAB_ID_KEY ->
  sessionStorage (Nat.iter n Tab.onVisibilityChange w) !! k = sessionStorage w !! k.
Proof.
  intros Hk. induction n as [|n IH]; [reflexivity|].
  rewrite Nat.iter_succ, onVisibilityChange_session by exact Hk. exact IH.
Qed.

Lemma run_actions_prevent_absent l w :
  sessionStorage w !! PREVENT_REFRESH = None ->
  sessionStorage
    (fold_left (fun (w : World) (tm : Z * TimerAction) => Tab.run_action (snd tm) w) l w)
    !! PREVENT_REFRESH = None.
Proof.
  revert w. induction l as [|tm l IH]; intros w H; [exact H|].
  cbn [fold_left]. apply IH. destruct (snd tm); cbn.
  - now rewrite lookup_delete_ne.
  - apply lookup_delete_eq.
Qed.

Lemma run_actions_prevent_fired l w due :
  In (due, ClearPreventRefresh) l ->
  sessionStorage
    (fold_left (fun (w : World) (tm : Z * TimerAction) => Tab.run_action (snd tm) w) l w)
    !! PREVENT_REFRESH = None.
Proof.
  revert w. induction l as [|tm l IH]; intros w; [intros []|].
  intros [->|Hin]; cbn [fold_left]; [|now apply IH].
  apply run_actions_prevent_absent. cbn. apply lookup_delete_eq.
Qed.

Lemma step_prevent_inv deadline ev p :
  prevent_inv deadline (fst p) -> prevent_inv deadline (fst (step ev p)).
Proof.
  destruct p as [w a]. unfold prevent_inv.
  destruct ev as [| |ms|r db]; cbn [step fst snd].
  1, 2: unfold Tab.visibilitychange;
    match goal with |- context [Nat.iter ?n _ ?w0] =>
      destruct (listeners_frame n w0) as (_ & _ & Hn & _ & _ & Ht & _);
      cbv zeta in Hn, Ht; cbn in Hn, Ht;
      rewrite (listeners_session n w0 PREVENT_REFRESH) by discriminate
    end;
    (intros [H|(due & Hin & Hlt & Hle)];
     [left; exact H|right; exists due; rewrite Hn; auto]).
  - intros [H|(due & Hin & Hlt & Hle)]; unfold Tab.elapse.
    + left. now apply run_actions_prevent_absent.
    + destruct (Z.leb_spec due (now w + Z.of_N ms)) as [Hdue|Hnot].
      * left. apply (run_actions_prevent_fired _ _ due).
        apply filter_In. split; [exact Hin|]. unfold Tab.is_due. cbn [fst]. lia.
      * right. exists due.
        match goal with |- context [fold_left ?f ?l ?w0] =>
          destruct (run_actions_frame l w0) as [-> ->] end.
        cbn [timers now with_timers with_now]. repeat split; try lia.
        apply filter_In. split; [exact Hin|]. unfold Tab.is_due. cbn [fst].
        apply negb_true_iff. lia.
  - destruct (checkSessionQuietly_frame r db w a) as (Hs & _ & Ht & Hn & _).
    cbv zeta in *. now rewrite Hs, Ht, Hn.
Qed.

Lemma run_prevent_inv deadline evs p :
  prevent_inv deadline (fst p) -> prevent_inv deadline (fst (run evs p)).
Proof.
  revert p. unfold run. induction evs as [|ev evs IH]; intros p H; [exact H|].
  cbn [fold_left]. now apply IH, step_prevent_inv.
Qed.

Lemma preventNext_frame w :
  now (Tab.preventNextTabSwitchRefresh w) = now w /\
  In (now w + 5000, ClearPreventRefresh) (timers (Tab.preventNextTabSwitchRefresh w)).
Proof.
  unfold Tab.preventNextTabSwitchRefresh, Tab.setTimeout.
  set (w0 := with_sessionStorage _ w).
  destruct (getTabId_spec w0) as (_ & _ & _ & Hn & _). cbv zeta in Hn.
  destruct (Tab.getTabId w0) as [tabId w1]. cbn in *.
  split; [exact Hn|]. rewrite Hn. apply in_or_app. right. now left.
Qed.

(** X9.  Five seconds after [preventNextTabSwitchRefresh] its flag is gone
    again, whatever the tab did meanwhile (hidden, shown, revalidated). *)
Theorem prevent_flag_cleared_after_five_seconds
    (w : World) (a : AuthState) (evs : list Event) :
  5000 <= elapsed evs ->
  sessionStorage (fst (run evs (Tab.preventNextTabSwitchRefresh w, a)))
    !! PREVENT_REFRESH = None.
Proof.
  intros Hel. destruct (preventNext_frame w) as [Hn Hin].
  assert (Hinv : prevent_inv (now w + 5000)
                   (fst (Tab.preventNextTabSwitchRefresh w, a))).
  { right. exists (now w + 5000). cbn [fst]. rewrite Hn. repeat split; [exact Hin|lia|lia]. }
  apply (run_prevent_inv _ evs) in Hinv.
  pose proof (run_now evs (Tab.preventNextTabSwitchRefresh w, a)) as Hnow.
  cbn [fst] in Hnow. rewrite Hn in Hnow.
  destruct Hinv as [H|(due & _ & Hlt & Hle)]; [exact H|lia].
Qed.

Lemma prevent_flag_cleared_after_five_seconds_witness :
  sessionStorage
    (fst (run [EvHide; EvElapse 3000; EvShow; EvElapse 2000]
            (Tab.preventNextTabSwitchRefresh Sample.flagged, Sample.auth)))
    !! PREVENT_REFRESH = None.
Proof.
  apply (prevent_flag_cleared_after_five_seconds Sample.flagged Sample.auth
           [EvHide; EvElapse 3000; EvShow; EvElapse 2000]).
  cbn [elapsed]. lia.
Defined.

Lemma onVisibilityChange_timers w :
  timers (Tab.onVisibilityChange w) =
  (timers w ++
   match visibilityState w with
   | Visible => [(now w + 2500, ClearSwitchMarkers)]
   | Hidden => []
   end)%list.
Proof.
  unfold Tab.onVisibilityChange, Tab.setTimeout.
  destruct (visibilityState w).
  - destruct (saveTabState_frame [("lastVisible", VNum (now w))] w)
      as (_ & _ & Ht & Hn & _). cbv zeta in Ht, Hn.
    cbn [timers with_timers]. now rewrite Ht, Hn.
  - destruct (saveTabState_frame [("lastHidden", VNum (now w))] w)
      as (_ & _ & Ht & _). cbv zeta in Ht. rewrite Ht. now rewrite List.app_nil_r.
Qed.

Lemma listeners_timers n w :
  timers (Nat.iter n Tab.onVisibilityChange w) =
  (timers w ++
   match visibilityState w with
   | Visible => repeat (now w + 2500, ClearSwitchMarkers) n
   | Hidden => []
   end)%list.
Proof.
  induction n as [|n IH]; [destruct (visibilityState w); now rewrite List.app_nil_r|].
  rewrite Nat.iter_succ, onVisibilityChange_timers, IH.
  destruct (listeners_frame n w) as (_ & _ & -> & -> & _).
  destruct (visibilityState w); [|now rewrite !List.app_nil_r].
  rewrite <- List.app_assoc. f_equal. symmetry. apply repeat_cons.
Qed.

(** X10.  Every call of [applySwitchPreventionToFetch] registers one more
    copy of the listener, and each copy arms its own callback: after [n]
    calls a single show event queues, behind the callbacks that were
    pending, one 2500 ms clearing of the switch markers per registered
    copy; a hide event queues nothing. *)
Theorem listeners_accumulate (n : nat) (w : World) :
  let installed := Nat.iter n Tab.applySwitchPreventionToFetch w in
  visibilityListeners installed = (visibilityListeners w + n)%nat /\
  timers (Tab.visibilitychange Visible installed) =
    (timers w ++
     repeat (now w + 2500, ClearSwitchMarkers) (visibilityListeners w + n))%list /\
  timers (Tab.visibilitychange Hidden installed) = timers w.
Proof.
  cbv zeta.
  assert (Hi : visibilityListeners (Nat.iter n Tab.applySwitchPreventionToFetch w) =
               (visibilityListeners w + n)%nat /\
               timers (Nat.iter n Tab.applySwitchPreventionToFetch w) = timers w /\
               now (Nat.iter n Tab.applySwitchPreventionToFetch w) = now w).
  { induction n as [|n (IH1 & IH2 & IH3)]; [repeat split; cbn; lia|].
    rewrite Nat.iter_succ. cbn. rewrite IH1. repeat split; [lia|exact IH2|exact IH3]. }
  destruct Hi as (Hl & Ht & Hn).
  split; [exact Hl|]. unfold Tab.visibilitychange.
  split; rewrite listeners_timers;
    cbn [timers now with_visibilityState visibilityListeners visibilityState];
    rewrite ?Hl, ?Ht, ?Hn; [reflexivity|apply List.app_nil_r].
Qed.

Lemma listeners_restore n w :
  (0 < n)%nat ->
  exists extra,
    Tab.restoreTabState (Nat.iter n Tab.onVisibilityChange w) =
      VObj (builtTabState extra (Nat.iter (pred n) Tab.onVisibilityChange w)) /\
    extra = [(match visibilityState w with Visible => "lastVisible" | Hidden => "lastHidden" end,
              VNum (now w))].
Proof.
  intros Hn. destruct n as [|n]; [lia|]. cbn [pred]. rewrite Nat.iter_succ.
  destruct (listeners_frame n w) as (_ & _ & Hnow & Hv & _). cbv zeta in *.
  set (w1 := Nat.iter n Tab.onVisibilityChange w) in *.
  eexists. split; [|reflexivity].
  unfold Tab.onVisibilityChange, Tab.setTimeout. rewrite Hv, Hnow.
  destruct (visibilityState w).
  - change (Tab.restoreTabState (with_timers ?t ?x)) with (Tab.restoreTabState x).
    apply restore_after_save.
  - apply restore_after_save.
Qed.

Lemma listeners_token n w :
  Tab.getAuthToken (Nat.iter n Tab.onVisibilityChange w) = Tab.getAuthToken w.
Proof.
  induction n as [|n IH]; [reflexivity|].
  rewrite Nat.iter_succ, <- IH.
  set (w1 := Nat.iter n Tab.onVisibilityChange w).
  unfold Tab.onVisibilityChange, Tab.setTimeout.
  destruct (visibilityState w1);
    [change (Tab.getAuthToken (with_timers ?t ?x)) with (Tab.getAuthToken x)|];
    unfold Tab.saveTabState;
    destruct (getTabId_spec w1) as (_ & _ & Hls & _); cbv zeta in Hls;
    destruct (Tab.getTabId w1) as [tabId w2]; cbn [snd] in Hls;
    unfold Tab.getAuthToken; cbn [localStorage with_localStorage];
    rewrite lookup_insert_ne by discriminate; now rewrite Hls.
Qed.

(** What [restoreTabState] reads after the general [saveTabState]. *)
Lemma restore_after_save_any additionalData w record :
  to_json (JObj (spread (data (Tab.freshTabState (fst (Tab.getTabId w))
                                 (snd (Tab.getTabId w)))) additionalData))
    = Written record ->
  Tab.restoreTabState (Tab.saveTabState_any additionalData w) = record.
Proof.
  unfold Tab.saveTabState_any. destruct (Tab.getTabId w) as [tabId w1]. cbn [fst snd].
  intros ->. unfold Tab.restoreTabState. cbn [localStorage with_localStorage].
  rewrite lookup_insert_eq. now rewrite stringify_nonempty, parse_stringify.
Qed.

(** The fresh fields as [saveTabState] computes them in [w]. *)
Lemma freshTabState_here w :
  Tab.freshTabState (fst (Tab.getTabId w)) (snd (Tab.getTabId w)) =
  [("tabId", VStr (fst (Tab.getTabId w))); ("lastActive", VNum (now w));
   ("route", VStr (pathname w)); ("authToken", Tab.getAuthToken w)].
Proof.
  destruct (getTabId_spec w) as (_ & _ & Hls & Hn & Hp & _). cbv zeta in *.
  unfold Tab.freshTabState. rewrite Hn, Hp. now rewrite (getAuthToken_local _ _ Hls).
Qed.

(** X11.  A visibility event in the application leaves the record of
    [AuthProvider]'s handler, which runs last and overwrites: after a show
    the record holds [hasAuth], [authTimestamp], the user's address when
    there is a user, and the cached token, and no [lastVisible]; after a
    hide with a user in memory it holds [hiddenWithAuth] and no
    [lastHidden].  Only a hide with nobody in memory leaves the record of
    the listener of [applySwitchPreventionToFetch], with its [lastHidden]. *)
Theorem visibility_stamps_overwritten (u : option User) (w : World) :
  let shown := Tab.restoreTabState (documentVisibilityChange u Visible w) in
  let hidden := Tab.restoreTabState (documentVisibilityChange u Hidden w) in
  prop "hasAuth" shown = Some (VBool (match u with Some _ => true | None => false end)) /\
  prop "authTimestamp" shown = Some (VNum (now w)) /\
  prop "userEmail" shown = option_map (fun usr => VStr (email usr)) u /\
  prop "authToken" shown = Some (Tab.getAuthToken w) /\
  prop "lastVisible" shown = None /\
  match u with
  | Some usr =>
      prop "hasAuth" hidden = Some (VBool true) /\
      prop "hiddenWithAuth" hidden = Some (VBool true) /\
      prop "userEmail" hidden = Some (VStr (email usr)) /\
      prop "authToken" hidden = Some (Tab.getAuthToken w) /\
      prop "lastHidden" hidden = None
  | None =>
      hidden = Tab.restoreTabState (Tab.visibilitychange Hidden w) /\
      ((0 < visibilityListeners w)%nat ->
       prop "lastHidden" hidden = Some (VNum (now w)))
  end.
Proof.
  cbv zeta. unfold documentVisibilityChange, handleVisibilityChange, Tab.visibilitychange.
  set (n := visibilityListeners w).
  assert (Hf : forall v,
            visibilityState (Nat.iter n Tab.onVisibilityChange (with_visibilityState v w)) = v /\
            now (Nat.iter n Tab.onVisibilityChange (with_visibilityState v w)) = now w /\
            Tab.getAuthToken (Nat.iter n Tab.onVisibilityChange (with_visibilityState v w)) =
              Tab.getAuthToken w).
  { intros v. destruct (listeners_frame n (with_visibilityState v w))
      as (_ & _ & Hn & Hv & _). cbv zeta in *.
    rewrite Hn, Hv, listeners_token. repeat split. }
  destruct (Hf Visible) as (HvV & HnV & HtV). destruct (Hf Hidden) as (HvH & HnH & HtH).
  rewrite HvV, HvH, HnV.
  set (wV := Nat.iter n Tab.onVisibilityChange (with_visibilityState Visible w)) in *.
  set (wH := Nat.iter n Tab.onVisibilityChange (with_visibilityState Hidden w)) in *.
  assert (Hshown : forall e,
            Tab.restoreTabState
              (Tab.saveTabState_any
                 [("hasAuth", JBool (match u with Some _ => true | None => false end));
                  ("authTimestamp", JNum (now w)); ("userEmail", e)] wV) =
            VObj ([("tabId", VStr (fst (Tab.getTabId wV))); ("lastActive", VNum (now w));
                   ("route", VStr (pathname wV)); ("authToken", Tab.getAuthToken w);
                   ("hasAuth", VBool (match u with Some _ => true | None => false end));
                   ("authTimestamp", VNum (now w))] ++
                  match to_json e with Written j => [("userEmail", j)] | _ => [] end) \/
            to_json e = Unserialisable).
  { intros e. destruct (to_json e) as [| |j] eqn:E; [now right| |]; left;
      apply restore_after_save_any; rewrite freshTabState_here, HnV, HtV;
      cbn [data map spread fold_left obj_set obj_has existsb fst snd String.eqb Ascii.eqb
           Bool.eqb orb app of_value to_json];
      rewrite to_json_of_value, E; reflexivity. }
  split; [|split; [|split; [|split; [|split]]]].
  1-5: destruct u as [usr|];
    match goal with |- context [("userEmail", ?e)] =>
      destruct (Hshown e) as [-> | Hbad]; [|discriminate Hbad] end;
    reflexivity.
  destruct u as [usr|].
  - assert (Hhidden :
      Tab.restoreTabState
        (Tab.saveTabState_any
           [("hasAuth", JBool true); ("hiddenWithAuth", JBool true);
            ("userEmail", JStr (email usr))] wH) =
      VObj [("tabId", VStr (fst (Tab.getTabId wH))); ("lastActive", VNum (now w));
            ("route", VStr (pathname wH)); ("authToken", Tab.getAuthToken w);
            ("hasAuth", VBool true); ("hiddenWithAuth", VBool true);
            ("userEmail", VStr (email usr))]).
    { apply restore_after_save_any. rewrite freshTabState_here, HnH, HtH.
      cbn [data map spread fold_left obj_set obj_has existsb fst snd String.eqb Ascii.eqb
           Bool.eqb orb app of_value to_json].
      rewrite to_json_of_value. reflexivity. }
    rewrite Hhidden. repeat split; reflexivity.
  - split; [reflexivity|]. intros Hl.
    destruct (listeners_restore n (with_visibilityState Hidden w) Hl) as (eh & Hh & ->).
    fold wH in Hh. rewrite Hh. cbn [prop visibilityState with_visibilityState now].
    rewrite builtTabState_get. reflexivity.
Qed.

End MoreWindowFacts.

(** ** More about the two [fetch] wrappers *)

Module MoreFetchFacts.
Import JSON JS Aux JSFacts FetchFacts.

(** X12.  [ensureTokenInRequests]: when the URL passes the wrapper's test
    (it starts with [/] or with the page's origin, or contains the
    Supabase URL), a token is cached and [init.headers] name no
    [Authorization] (in any letter case), the request goes out with
    [Bearer <token>]. *)
Theorem ensureToken_attaches (w : World) (input : RequestInfo) (init : option RequestInit) :
  (Str.startsWith "/" (Tab.request_url input) ||
   Str.startsWith (origin w) (Tab.request_url input) ||
   Str.includes (match supabaseUrl w with Some u => u | None => EmptyString end)
     (Tab.request_url input)) = true ->
  truthy (Tab.getAuthToken w) = true ->
  Tab.Headers_new (match init with Some i => headers i | None => None end)
    !! "authorization" = None ->
  Tab.sentAuthorization (Tab.ensureToken_pass w (input, init)) =
    Some (Tab.bearer (Tab.getAuthToken w)).
Proof.
  intros Hurl Htok Hnone. unfold Tab.ensureToken_pass. cbn [fst snd].
  change (Tab.isSameOrigin w (Tab.request_url input) ||
          Tab.isSupabaseCall w (Tab.request_url input) = true) in Hurl.
  rewrite Hurl, Htok. cbn [andb].
  unfold Tab.sentAuthorization. cbn [fst snd headers].
  change (Tab.Headers_new (Some (HeadersObject ?x))) with x.
  assert (Hh : Tab.Headers_new
                 (headers match init with
                          | Some i => i
                          | None => {| headers := None; method := None; body := None |}
                          end) = 
               Tab.Headers_new (match init with Some i => headers i | None => None end))
    by now destruct init.
  rewrite Hh.
  assert (Tab.Headers_has "Authorization"
            (Tab.Headers_new (match init with Some i => headers i | None => None end))
          = false) as Hhas.
  { unfold Tab.Headers_has. change (Str.lower "Authorization") with "authorization".
    rewrite Hnone. apply bool_decide_eq_false_2. intros [? [=]]. }
  assert (Tab.Headers_has "authorization"
            (Tab.Headers_new (match init with Some i => headers i | None => None end))
          = false) as Hhas' by exact Hhas.
  rewrite Hhas, Hhas'. cbn [orb]. unfold Tab.Headers_set.
  change (Str.lower "Authorization") with "authorization". apply lookup_insert_eq.
Qed.

Lemma ensureToken_attaches_witness :
  Tab.sentAuthorization
    (Tab.ensureToken_pass Sample.signedIn
       (UrlString "/api/updates", explicitInit [("Content-Type", "application/json")]))
  = Some (Tab.bearer (Tab.getAuthToken Sample.signedIn)).
Proof.
  apply (ensureToken_attaches Sample.signedIn (UrlString "/api/updates")
           (explicitInit [("Content-Type", "application/json")])); reflexivity.
Defined.

(** X15.  [ensureTokenInRequests] passes on the input, the method and the
    body as the caller gave them.  Of the headers other than
    [Authorization], those of [init.headers] go out unchanged; but when the
    input is a [Request] and [init] gives no headers, the headers the
    wrapper builds replace the [Request]'s own, which are all dropped
    whenever the wrapper's test passes and a token is cached. *)
Theorem ensureToken_preserves_rest
    (w : World) (input : RequestInfo) (init : option RequestInit) :
  let given := match init with Some i => headers i | None => None end in
  let tested :=
    (Str.startsWith "/" (Tab.request_url input) ||
     Str.startsWith (origin w) (Tab.request_url input) ||
     Str.includes (match supabaseUrl w with Some u => u | None => EmptyString end)
       (Tab.request_url input)) && truthy (Tab.getAuthToken w) in
  exists init',
    Tab.ensureToken_pass w (input, init) = (input, Some init') /\
    method init' = match init with Some i => method i | None => None end /\
    body init' = match init with Some i => body i | None => None end /\
    forall n, n <> "authorization" ->
      Tab.sentHeaders (input, Some init') !! n =
      match input, given with
      | RequestObject _ own, None => if tested then None else own !! n
      | _, _ => Tab.sentHeaders (input, init) !! n
      end.
Proof.
  cbv zeta. unfold Tab.ensureToken_pass. cbn [fst snd].
  change (Str.startsWith "/" (Tab.request_url input) ||
          Str.startsWith (origin w) (Tab.request_url input) ||
          Str.includes (match supabaseUrl w with Some u => u | None => EmptyString end)
            (Tab.request_url input))
    with (Tab.isSameOrigin w (Tab.request_url input) ||
          Tab.isSupabaseCall w (Tab.request_url input)).
  destruct (_ && _).
  - eexists. split; [reflexivity|]. cbn [method body headers].
    split; [now destruct init|]. split; [now destruct init|]. intros n Hn.
    unfold Tab.sentHeaders. cbn [fst snd headers].
    change (Tab.Headers_new (Some (HeadersObject ?x))) with x.
    assert (Hset : forall h : gmap string string,
              (if Tab.Headers_has "Authorization" h || Tab.Headers_has "authorization" h
               then h else Tab.Headers_set "Authorization" (Tab.bearer (Tab.getAuthToken w)) h)
                !! n = h !! n).
    { intros h. destruct (_ || _); [reflexivity|].
      unfold Tab.Headers_set. change (Str.lower "Authorization") with "authorization".
      now rewrite lookup_insert_ne by congruence. }
    rewrite Hset.
    destruct init as [i|]; cbn [headers];
      [destruct (headers i) as [h|]|]; destruct input; try reflexivity;
      apply lookup_empty.
  - eexists. split; [reflexivity|].
    split; [now destruct init|]. split; [now destruct init|]. intros n Hn.
    unfold Tab.sentHeaders. cbn [fst snd].
    destruct init as [i|]; cbn [headers];
      [destruct (headers i) as [h|]|]; destruct input; reflexivity.
Qed.

(** A [Request] with its own [Content-Type] and no [init]: the wrapper
    sends it with the [Authorization] header alone. *)
Lemma ensureToken_drops_request_headers :
  let input := RequestObject "/api/updates" {["content-type" := "application/json"]} in
  Tab.sentHeaders (input, None) = {["content-type" := "application/json"]} /\
  map_to_list (Tab.sentHeaders (Tab.ensureToken_pass Sample.signedIn (input, None))) =
    [("authorization", "Bearer T")].
Proof. cbv zeta. split; vm_compute; reflexivity. Qed.

Lemma spread_nil_get (l : list (string * string)) k :
  obj_get k (spread [] l) = obj_get k l.
Proof. rewrite obj_get_spread. now destruct (obj_get k l). Qed.

(** X16.  The wrapper of [applySwitchPreventionToFetch], given an [init]
    and a cached token: whatever [Authorization] property the plain-object
    headers had is replaced by [Bearer <token>], the other properties are
    kept; a [Headers] instance loses all its entries, because the object
    spread copies none; no test of the URL is made. *)
Theorem switchPrevention_rewrites_headers
    (w : World) (input : RequestInfo) (init : RequestInit) :
  truthy (Tab.getAuthToken w) = true ->
  exists entries,
    Tab.switchPrevention_pass w (input, Some init) =
      (input, Some {| headers := Some (PlainHeaders entries);
                      method := method init; body := body init |}) /\
    obj_get "Authorization" entries = Some (Tab.bearer (Tab.getAuthToken w)) /\
    match headers init with
    | Some (PlainHeaders l) =>
        forall k, k <> "Authorization" -> obj_get k entries = obj_get k l
    | _ => entries = [("Authorization", Tab.bearer (Tab.getAuthToken w))]
    end.
Proof.
  intros Htok. unfold Tab.switchPrevention_pass. cbn [fst snd]. rewrite Htok.
  eexists. split; [reflexivity|]. split; [apply obj_get_set_eq|].
  destruct (headers init) as [[l|h]|]; cbn [Tab.spreadable]; try reflexivity.
  intros k Hk. rewrite obj_get_set_ne by congruence. apply spread_nil_get.
Qed.

Lemma switchPrevention_rewrites_headers_witness :
  exists entries,
    Tab.switchPrevention_pass Sample.signedIn
      (UrlString "https://third.example/api",
       Some {| headers := Some (HeadersObject {["content-type" := "application/json"]});
               method := Some "POST"; body := None |}) =
      (UrlString "https://third.example/api",
       Some {| headers := Some (PlainHeaders entries);
               method := Some "POST"; body := None |}) /\
    obj_get "Authorization" entries = Some (Tab.bearer (Tab.getAuthToken Sample.signedIn)) /\
    entries = [("Authorization", Tab.bearer (Tab.getAuthToken Sample.signedIn))].
Proof.
  apply (switchPrevention_rewrites_headers Sample.signedIn
           (UrlString "https://third.example/api")
           {| headers := Some (HeadersObject {["content-type" := "application/json"]});
              method := Some "POST"; body := None |}).
  reflexivity.
Defined.

(** X17.  Neither wrapper touches a request when no token is cached, and
    the wrapper of [applySwitchPreventionToFetch] also leaves a call without
    [init] alone; [ensureTokenInRequests] then only supplies the empty
    [init]. *)
Theorem wrappers_idle_without_token (w : World) (input : RequestInfo)
    (init : option RequestInit) :
  Tab.getAuthToken w = VNull ->
  Tab.switchPrevention_pass w (input, init) = (input, init) /\
  Tab.sentAuthorization (Tab.ensureToken_pass w (input, init)) =
    Tab.sentAuthorization (input, init) /\
  Tab.switchPrevention_pass w (input, None) = (input, None).
Proof.
  intros Hnull. unfold Tab.switchPrevention_pass, Tab.ensureToken_pass.
  cbn [fst snd]. rewrite Hnull. cbn [truthy]. rewrite andb_false_r.
  repeat split; now destruct init.
Qed.

Lemma wrappers_idle_without_token_witness :
  Tab.switchPrevention_pass Sample.world
    (UrlString "/api/x", explicitInit [("Accept", "text/plain")]) =
    (UrlString "/api/x", explicitInit [("Accept", "text/plain")]) /\
  Tab.sentAuthorization
    (Tab.ensureToken_pass Sample.world
       (UrlString "/api/x", explicitInit [("Accept", "text/plain")])) =
    Tab.sentAuthorization (UrlString "/api/x", explicitInit [("Accept", "text/plain")]) /\
  Tab.switchPrevention_pass Sample.world (UrlString "/api/x", None) =
    (UrlString "/api/x", None).
Proof.
  apply (wrappers_idle_without_token Sample.world (UrlString "/api/x")
           (explicitInit [("Accept", "text/plain")])).
  reflexivity.
Defined.

(** Witnesses for the two lemmas of [FetchFacts] on explicit headers. *)
Lemma ensureToken_keeps_explicit_header_witness :
  Tab.sentAuthorization
    (Tab.ensureToken_pass Sample.signedIn
       (UrlString "/api/x",
        Some {| headers := Some (PlainHeaders [("AUTHORIZATION", "Basic abc")]);
                method := None; body := None |})) = Some "Basic abc".
Proof.
  apply (ensureToken_keeps_explicit_header Sample.signedIn (UrlString "/api/x")
           {| headers := Some (PlainHeaders [("AUTHORIZATION", "Basic abc")]);
              method := None; body := None |} "Basic abc").
  - reflexivity.
  - eexists. reflexivity.
Defined.

Lemma ensureToken_adds_only_when_witness :
  (Str.startsWith "/" "/api/x" || Str.startsWith (origin Sample.signedIn) "/api/x" ||
   Str.includes
     (match supabaseUrl Sample.signedIn with Some u => u | None => EmptyString end)
     "/api/x") = true /\
  truthy (Tab.getAuthToken Sample.signedIn) = true /\
  Tab.Headers_new None !! "authorization" = None /\
  Tab.sentAuthorization (Tab.ensureToken_pass Sample.signedIn (UrlString "/api/x", None)) =
    Some (Tab.bearer (Tab.getAuthToken Sample.signedIn)).
Proof.
  apply (ensureToken_adds_only_when Sample.signedIn (UrlString "/api/x") None).
  vm_compute. discriminate.
Defined.

End MoreFetchFacts.

(** ** More about the auth context *)

Module MoreAuthFacts.
Import JSON JS Aux JSONFacts.

(** X18.  After [updateUserData] for a collaborator user with an e-mail
    address, memory and cache agree: the identity in memory has that
    address, the resolved role and the current time, and the cached text
    parses back to exactly this identity. *)
Theorem updateUserData_memory_and_cache_agree
    (au : AuthUser) (mail : string) (showLoading : bool) (db : Lookups)
    (w : World) (a : AuthState) :
  truthy_text (authEmail au) = Some mail ->
  let p' := updateUserData (Some au) showLoading db (w, a) in
  exists u,
    user (snd p') = Some u /\
    userId u = authId au /\ email u = mail /\ role u = resolve_role db /\
    lastChecked u = now w /\
    (localStorage (fst p') !! USER_CACHE_KEY) ≫= JSON.parse = Some (user_json u) /\
    (forall k, k <> USER_CACHE_KEY -> localStorage (fst p') !! k = localStorage w !! k).
Proof.
  intros Hmail. cbv zeta. unfold updateUserData. rewrite Hmail.
  eexists. destruct showLoading; cbn [fst snd user setUser setIsLoading localStorage
                                      with_localStorage];
    (split; [reflexivity|]);
    cbn [userId email role lastChecked];
    repeat (split; [reflexivity|]);
    (split; [rewrite lookup_insert_eq; cbn [mbind option_bind]; apply parse_stringify|]);
    intros k Hk; now rewrite lookup_insert_ne by congruence.
Qed.

Lemma updateUserData_memory_and_cache_agree_witness :
  let au := {| authId := "u7"; authEmail := Some "bob@example.com";
               metadataName := None |} in
  let p' := updateUserData (Some au) true Sample.noRows (Sample.world, Sample.auth) in
  exists u,
    user (snd p') = Some u /\
    userId u = "u7" /\ email u = "bob@example.com" /\
    role u = resolve_role Sample.noRows /\
    lastChecked u = now Sample.world /\
    (localStorage (fst p') !! USER_CACHE_KEY) ≫= JSON.parse = Some (user_json u) /\
    (forall k, k <> USER_CACHE_KEY ->
       localStorage (fst p') !! k = localStorage Sample.world !! k).
Proof.
  cbv zeta.
  apply (updateUserData_memory_and_cache_agree
           {| authId := "u7"; authEmail := Some "bob@example.com"; metadataName := None |}
           "bob@example.com" true Sample.noRows Sample.world Sample.auth).
  reflexivity.
Defined.

(** X19.  [updateUserData] for a user without an e-mail address (or for no
    user) clears the identity in memory and leaves the durable store as it
    is: a cached record stays behind. *)
Theorem updateUserData_without_email (authUser : option AuthUser) (showLoading : bool)
    (db : Lookups) (w : World) (a : AuthState) :
  match authUser with
  | Some au => truthy_text (authEmail au) = None
  | None => True
  end ->
  let p' := updateUserData authUser showLoading db (w, a) in
  user (snd p') = None /\ fst p' = w.
Proof.
  intros H. cbv zeta. unfold updateUserData.
  destruct authUser as [au|]; [rewrite H|]; destruct showLoading; now split.
Qed.

Lemma updateUserData_without_email_witness :
  let w := with_localStorage
             (<[USER_CACHE_KEY := JSON.stringify (user_json Sample.alice)]> ∅)
             Sample.world in
  let p' := updateUserData
              (Some {| authId := "u7"; authEmail := Some EmptyString;
                       metadataName := Some "Bob" |})
              false Sample.noRows (w, Sample.auth) in
  user (snd p') = None /\ fst p' = w.
Proof.
  cbv zeta.
  apply (updateUserData_without_email
           (Some {| authId := "u7"; authEmail := Some EmptyString;
                    metadataName := Some "Bob" |})).
  reflexivity.
Defined.

(** X20.  The display name is never empty: the metadata name, else the part
    of the address before [@], else [User]. *)
Theorem display_name_nonempty (metaName : option string) (mail : string) :
  Str.nonempty (display_name metaName mail) = true /\
  (forall n, truthy_text metaName = Some n -> display_name metaName mail = n) /\
  (truthy_text metaName = None -> Str.nonempty (Str.before "@" mail) = false ->
   display_name metaName mail = "User").
Proof.
  unfold display_name, truthy_text.
  destruct metaName as [n|]; [destruct (Str.nonempty n) eqn:En|];
    destruct (Str.nonempty (Str.before "@" mail)) eqn:Eb;
    repeat split; auto; try congruence; intros; congruence.
Qed.

(** X21.  The quiet session check is quiet: whatever the collaborator
    answers, it never changes the loading flag, the toasts, the route, the
    volatile store or the pending reload. *)
Theorem checkSessionQuietly_is_quiet
    (r : SessionResponse) (db : Lookups) (w : World) (a : AuthState) :
  let p' := checkSessionQuietly r db (w, a) in
  isLoading (snd p') = isLoading a /\ toasts (snd p') = toasts a /\
  reloadIn (snd p') = reloadIn a /\
  pathname (fst p') = pathname w /\ sessionStorage (fst p') = sessionStorage w /\
  fetchChain (fst p') = fetchChain w /\
  (forall k, k <> USER_CACHE_KEY -> localStorage (fst p') !! k = localStorage w !! k).
Proof.
  cbv zeta. unfold checkSessionQuietly, updateUserData.
  destruct r as [| |[[[au|]]|]]; cbn [fst snd]; repeat split; auto;
    try (intros k Hk; cbn; now rewrite lookup_delete_ne by congruence).
  all: try (destruct (truthy_text (authEmail au)); cbn; auto;
            intros k Hk; now rewrite lookup_insert_ne by congruence).
  all: destruct (user a); cbn; auto;
       destruct (negb (item_truthy (localStorage w !! USER_CACHE_KEY))); cbn; auto;
       try (destruct (visibilityState w); cbn; auto);
       intros k Hk; now rewrite lookup_delete_ne by congruence.
Qed.

(** X22.  [refreshUser] always ends with the loading flag off.  When
    [getUser] throws or returns an error the identity is cleared and the
    durable store is untouched; when it returns no user the identity is
    cleared and the cached record removed. *)
Theorem refreshUser_outcomes (r : UserResponse) (db : Lookups) (w : World) (a : AuthState) :
  let p' := refreshUser r db (w, a) in
  isLoading (snd p') = false /\
  match r with
  | UserThrows | UserError => user (snd p') = None /\ fst p' = w
  | UserData None =>
      user (snd p') = None /\ localStorage (fst p') !! USER_CACHE_KEY = None
  | UserData (Some au) =>
      match truthy_text (authEmail au) with
      | Some mail =>
          exists u, user (snd p') = Some u /\ email u = mail /\
            (localStorage (fst p') !! USER_CACHE_KEY) ≫= JSON.parse = Some (user_json u)
      | None => user (snd p') = None /\ fst p' = w
      end
  end.
Proof.
  cbv zeta. unfold refreshUser, updateUserData, on_durable, on_world, on_auth.
  destruct r as [| |[au|]];
    cbn [fst snd user isLoading setUser setIsLoading localStorage with_localStorage];
    try (now repeat split).
  - destruct (truthy_text (authEmail au)) as [mail|];
      cbn [fst snd user isLoading setUser setIsLoading localStorage with_localStorage email];
      [|now repeat split].
    split; [reflexivity|]. eexists. split; [reflexivity|]. split; [reflexivity|].
    rewrite lookup_insert_eq. cbn [mbind option_bind]. apply parse_stringify.
  - split; [reflexivity|]. split; [reflexivity|]. apply lookup_delete_eq.
Qed.

(** X23.  [checkUserRole] answers from the identity the component was
    rendered with.  With none in memory it refreshes, and then still
    answers [user]: the test after the refresh reads the value captured
    before it, so a refresh that has just put an identity into memory,
    whatever its role, is not seen. *)
Theorem checkUserRole_without_identity
    (r : UserResponse) (db : Lookups) (w : World) (a : AuthState) :
  user a = None ->
  let result := checkUserRole r db (w, a) in
  fst result = RoleUser /\
  isLoading (snd (snd result)) = false /\
  forall au mail,
    r = UserData (Some au) -> truthy_text (authEmail au) = Some mail ->
    option_map role (user (snd (snd result))) = Some (resolve_role db) /\
    option_map email (user (snd (snd result))) = Some mail.
Proof.
  intros H. cbv zeta. unfold checkUserRole. cbn [snd]. rewrite H. cbn [fst snd].
  split; [reflexivity|]. split.
  - unfold refreshUser, on_auth, on_durable, on_world, updateUserData.
    destruct r as [| |[au|]]; cbn [fst snd]; try reflexivity.
    all: try (destruct (truthy_text (authEmail au)); reflexivity).
  - intros au mail -> Hmail.
    unfold refreshUser, on_auth, updateUserData. cbn [fst snd]. rewrite Hmail.
    split; reflexivity.
Qed.

Lemma checkUserRole_without_identity_witness :
  let au := {| authId := "u9"; authEmail := Some "root@example.com";
               metadataName := None |} in
  let admin := {| adminRow := Returns true; managerRows := Returns false;
                  memberRow := Returns None |} in
  let result :=
    checkUserRole (UserData (Some au)) admin (Sample.world, setUser None Sample.auth) in
  fst result = RoleUser /\
  isLoading (snd (snd result)) = false /\
  forall au' mail,
    UserData (Some au) = UserData (Some au') ->
    truthy_text (authEmail au') = Some mail ->
    option_map role (user (snd (snd result))) = Some (resolve_role admin) /\
    option_map email (user (snd (snd result))) = Some mail.
Proof.
  cbv zeta.
  apply (checkUserRole_without_identity
           (UserData (Some {| authId := "u9"; authEmail := Some "root@example.com";
                              metadataName := None |}))
           {| adminRow := Returns true; managerRows := Returns false;
              memberRow := Returns None |}
           Sample.world (setUser None Sample.auth)).
  reflexivity.
Defined.

(** X24.  The auth listener on [SIGNED_OUT]: the identity is cleared, the
    cached record removed and the route is [/]; an event that is neither
    [SIGNED_OUT] nor a [SIGNED_IN] with a session changes nothing. *)
Theorem onAuthStateChange_signed_out
    (session : option Session) (db : Lookups) (w : World) (a : AuthState) :
  let p' := onAuthStateChange SIGNED_OUT session db (w, a) in
  user (snd p') = None /\
  localStorage (fst p') !! USER_CACHE_KEY = None /\
  pathname (fst p') = "/" /\
  (forall k, k <> USER_CACHE_KEY -> localStorage (fst p') !! k = localStorage w !! k) /\
  sessionStorage (fst p') = sessionStorage w /\
  onAuthStateChange OtherAuthEvent session db (w, a) = (w, a) /\
  onAuthStateChange SIGNED_IN None db (w, a) = (w, a).
Proof.
  cbv zeta. unfold onAuthStateChange. cbn [on_durable on_world on_auth fst snd pathname
                                          with_localStorage].
  destruct (String.eqb_spec (pathname w) "/") as [E|E];
    cbn [on_durable on_world on_auth fst snd pathname with_localStorage with_pathname
         localStorage sessionStorage user setUser];
    repeat split; auto; try apply lookup_delete_eq;
    try (intros k Hk; now rewrite lookup_delete_ne by congruence).
Qed.

End MoreAuthFacts.

(** ** More about the two versions of [signOut] *)

Module MoreSignOutFacts.
Import JSON JS Aux SignOutFacts.

Lemma sweep_keeps pat m k : pat k = false -> sweep pat m !! k = m !! k.
Proof.
  intros Hk. unfold sweep. destruct (m !! k) as [v|] eqn:E.
  - apply map_lookup_filter_Some. split; [exact E|exact Hk].
  - apply map_lookup_filter_None. now left.
Qed.

Lemma removeItems_keeps keys m k : ~ In k keys -> removeItems keys m !! k = m !! k.
Proof.
  unfold removeItems. revert m. induction keys as [|k' keys IH]; intros m Hk; [reflexivity|].
  cbn [fold_left]. rewrite IH by (intros H; apply Hk; now right).
  apply lookup_delete_ne. intros ->. apply Hk. now left.
Qed.


Lemma removeIfSet_keeps keys m k : ~ In k keys -> removeIfSet keys m !! k = m !! k.
Proof.
  unfold removeIfSet. revert m. induction keys as [|k' keys IH]; intros m Hk; [reflexivity|].
  cbn [fold_left]. rewrite IH by (intros H; apply Hk; now right).
  destruct (item_truthy (m !! k')); [|reflexivity].
  apply lookup_delete_ne. intros ->. apply Hk. now left.
Qed.


(** X26.  [signOut] removes nothing but what it names.  A durable key that
    matches neither sweep pattern and is not [bypass_team_check] keeps its
    value; a volatile key that does not match the volatile pattern and is
    neither [returning_from_tab_switch] nor [prevent_auto_refresh] keeps
    its value (a key [password], say, which only the durable pattern
    names); each provided nothing else writes that key while a call of the
    collaborator is pending. *)
Theorem signOut_keeps_unrelated_keys
    (fault : option FaultPoint) (remote : Remote) (w : World) (a : AuthState) :
  let p' := signOut fault remote (w, a) in
  (forall k,
     durable_pattern k = false -> emergency_pattern k = false ->
     k <> "bypass_team_check" ->
     (forall n w0, localStorage (meanwhile remote n w0) !! k = localStorage w0 !! k) ->
     localStorage (fst p') !! k = localStorage w !! k) /\
  (forall k,
     volatile_pattern k = false ->
     k <> "returning_from_tab_switch" -> k <> "prevent_auto_refresh" ->
     (forall n w0, sessionStorage (meanwhile remote n w0) !! k = sessionStorage w0 !! k) ->
     sessionStorage (fst p') !! k = sessionStorage w !! k).
Proof.
  cbv zeta. rewrite signOut_unfold.
  match goal with
  | |- context [fst (?m (w, a))] =>
      pattern (fst (m (w, a)));
      match goal with |- ?Q _ => apply (wp_fst m Q) end
  end.
  unfold signOut_body, signOut_emergency, verifySignedOut.
  destruct (verifySession remote) as [|[]];
    exec; project;
    (split;
     [intros k Hd He Hb Hc;
      assert (Hfixed : ~ In k [USER_CACHE_KEY; "aditi_supabase_auth"; "aditi_tab_state";
                               "bypass_team_check"])
        by (intros [<-|[<-|[<-|[<-|[]]]]]; try discriminate Hd; now apply Hb);
      assert (Hcrit : ~ In k [USER_CACHE_KEY; "aditi_supabase_auth"])
        by (intros [<-|[<-|[]]]; discriminate Hd);
      repeat first [ rewrite removeIfSet_keeps by exact Hcrit
                   | rewrite Hc
                   | rewrite (sweep_keeps _ _ _ He)
                   | rewrite (sweep_keeps _ _ _ Hd)
                   | rewrite removeItems_keeps by exact Hfixed
                   | progress project ]; reflexivity
     |intros k Hv Hr Hp Hc;
      assert (Hfixed : ~ In k ["aditi_tab_id"; "returning_from_tab_switch";
                               "prevent_auto_refresh"])
        by (intros [<-|[<-|[<-|[]]]]; try discriminate Hv; congruence);
      repeat first [ rewrite Hc
                   | rewrite (sweep_keeps _ _ _ Hv)
                   | rewrite removeItems_keeps by exact Hfixed
                   | progress project ]; reflexivity]).
Qed.

Lemma signOut_keeps_unrelated_keys_witness :
  let p' :=
    signOut None Sample.quiet
      (with_sessionStorage (<["password" := "p"]> (sessionStorage Sample.dirty))
         Sample.dirty, Sample.auth) in
  localStorage (fst p') !! "theme" = Some "x" /\
  sessionStorage (fst p') !! "password" = Some "p".
Proof.
  cbv zeta.
  destruct (signOut_keeps_unrelated_keys None Sample.quiet
              (with_sessionStorage (<["password" := "p"]> (sessionStorage Sample.dirty))
                 Sample.dirty) Sample.auth) as [Hd Hv].
  split.
  - rewrite (Hd "theme"); [reflexivity|reflexivity|reflexivity|discriminate|reflexivity].
  - rewrite (Hv "password"); [reflexivity|reflexivity|discriminate|discriminate|reflexivity].
Defined.








End MoreSignOutFacts.
